(** * ATTPC event classification: image generation and data loading

    A shallow embedding of [src/data-processing/generate_images.py] and
    [src/utils/data.py], and the properties of both that the specification
    states.

    Conventions of the embedding.
    - Python floats are idealised as real numbers ([R]) in the generator and as
      rationals ([Q]) in the loader, where only comparisons of given
      probabilities occur and the functions stay executable.
    - A Python exception is a value [Raise e] of the [result] type.
    - The generator's functions run in a small state-and-error monad [M]
      whose state holds the tape of raw random draws consumed by
      [random.shuffle] and a ghost trace of the stages performed so far. *)

From Stdlib Require Import Ascii String ZArith Lia Bool Arith List.
From Stdlib Require Import Reals Lra.
From Stdlib Require Import Permutation Sorted.
From Stdlib Require Import QArith.
Import ListNotations.

Local Open Scope string_scope.
Local Open Scope list_scope.

(** ** Python prelude: exceptions and results *)

Module Py.

Inductive exn : Type :=
| ValueError (msg : string)
| IndexError (msg : string)
| KeyError (msg : string)
| OSError (msg : string)
| FileNotFoundError (msg : string)
| PermissionError (msg : string)
| UsageError (msg : string).

Inductive result (A : Type) : Type :=
| Ok (a : A)
| Raise (e : exn).

Arguments Ok {A} a.
Arguments Raise {A} e.

Definition rbind {A B} (r : result A) (k : A -> result B) : result B :=
  match r with
  | Ok a => k a
  | Raise e => Raise e
  end.

Definition is_ok {A} (r : result A) : bool :=
  match r with Ok _ => true | Raise _ => false end.

(** Evaluating [f] on every element, left to right, stopping at the first
    exception. *)
Fixpoint mapM {A B} (f : A -> result B) (l : list A) : result (list B) :=
  match l with
  | [] => Ok []
  | x :: t => rbind (f x) (fun y => rbind (mapM f t) (fun ys => Ok (y :: ys)))
  end.

(** A value the command line or a caller can pass where the code compares
    with [==]: a [str] or an [int]. *)
Inductive pyval : Type :=
| PStr (s : string)
| PInt (z : Z).

(** Python's [==] between such values: a [str] never equals an [int]. *)
Definition py_eqb (a b : pyval) : bool :=
  match a, b with
  | PStr s, PStr t => String.eqb s t
  | PInt x, PInt y => Z.eqb x y
  | _, _ => false
  end.

End Py.

Import Py.

Declare Scope result_scope.
Delimit Scope result_scope with result.
Notation "x <- c ;; k" := (rbind c (fun x => k))
  (at level 61, c at next level, right associativity) : result_scope.

(** ** src/data-processing/generate_images.py *)

Module GenerateImages.

Local Open Scope R_scope.

(** One row [[x, y, z, charge]] of the array that [event.xyzs(...)] returns. *)
Record Point : Type := mkPoint { px : R; py : R; pz : R; pq : R }.

(** A point cloud: the rows of an array of shape (n, 4). *)
Definition Event : Type := list Point.

(** An element [[xyzs, label]] of the list [data]. *)
Definition Labeled : Type := (Event * Z)%type.

(** [e[:, 3]]. *)
Definition charges (e : Event) : list R := map pq e.

(** [math.log10], idealised as the exact logarithm: the rounding of the
    result to a double is not modelled, so two close charges whose logarithms
    round to the same double are still told apart here.  Only facts that
    survive that rounding are stated of it. *)
Definition log10 (a : R) : R := ln a / ln 10.

(** What [_l] returns: the literal [0] is a Python [int], [math.log10(a)] a
    Python [float]. *)
Inductive pynum : Type :=
| PyInt (z : Z)
| PyFloat (r : R).

Definition num_val (v : pynum) : R :=
  match v with
  | PyInt z => IZR z
  | PyFloat r => r
  end.

(** [def _l(a): return 0 if a == 0 else math.log10(a)].
    [math.log10] raises [ValueError] on a negative argument. *)
Definition _l (a : R) : result pynum :=
  if Req_EM_T a 0 then Ok (PyInt 0)
  else if Rlt_dec 0 a then Ok (PyFloat (log10 a))
  else Raise (ValueError "math domain error").


(** The charge transform as the specification words it: 0 at 0, [log10]
    elsewhere. *)
Definition spec_transform (a : R) : R :=
  if Req_EM_T a 0 then 0 else log10 a.

(** *** [np.vectorize(_l)]

    Without [otypes], [np.vectorize] refuses an input of size 0, and takes the
    dtype of its output from the value the function returns on the first
    element of the input; every output is then cast to that dtype.  [_l]
    returns the [int] 0 on a zero charge, so a column that starts with a zero
    charge is returned as an integer array. *)
Inductive dtype : Type :=
| DInt
| DFloat.

Definition dtype_of (v : pynum) : dtype :=
  match v with
  | PyInt _ => DInt
  | PyFloat _ => DFloat
  end.

(** [int(r)]: truncation toward zero. *)
Definition Rtrunc (r : R) : Z :=
  if Rle_dec 0 r then Int_part r else (- Int_part (- r))%Z.

(** The cast of one output to the inferred dtype, read back as the float the
    assignment into the charge column stores. *)
Definition astype (d : dtype) (v : pynum) : R :=
  match d, v with
  | DFloat, _ => num_val v
  | DInt, PyInt z => IZR z
  | DInt, PyFloat r => IZR (Rtrunc r)
  end.

Definition np_vectorize (f : R -> result pynum) (xs : list R) : result (list R) :=
  match xs with
  | [] => Raise (ValueError "cannot call vectorize on size 0 inputs unless otypes is set")
  | x0 :: _ =>
      (first <- f x0 ;;
       outs <- mapM f xs ;;
       Ok (map (astype (dtype_of first)) outs))%result
  end.

Definition set_pq (p : Point) (c : R) : Point := mkPoint (px p) (py p) (pz p) c.

(** [e[:, 3] = cs]. *)
Definition set_charges (e : Event) (cs : list R) : Event :=
  map (fun pc => set_pq (fst pc) (snd pc)) (combine e cs).

(** [event[0][:, 3] = log(event[0][:, 3])] with [log = np.vectorize(_l)]. *)
Definition log_event (event : Labeled) : result Labeled :=
  (cs <- np_vectorize _l (charges (fst event)) ;;
   Ok (set_charges (fst event) cs, snd event))%result.

(** [for event in data: event[0][:, 3] = log(event[0][:, 3])]. *)
Definition log_stage (data : list Labeled) : result (list Labeled) :=
  mapM log_event data.

(** *** The state of a run *)

(** Ghost marks, each recorded when the stage starts; [StRender] is recorded
    for an event once its columns are selected and the figure is opened. *)
Inductive Step : Type :=
| StIngest
| StLog
| StShuffle
| StSplit
| StNormalize
| StRender
| StSave.

Record State : Type := mkState {
  tape : list nat;    (* raw draws of the random generator still to come *)
  trace : list Step   (* stages started so far, oldest first *)
}.

Definition M (A : Type) : Type := State -> State * result A.

Definition ret {A} (a : A) : M A := fun s => (s, Ok a).

Definition bind {A B} (m : M A) (k : A -> M B) : M B :=
  fun s =>
    match m s with
    | (s', Ok a) => k a s'
    | (s', Raise e) => (s', Raise e)
    end.

Definition lift {A} (r : result A) : M A := fun s => (s, r).

Definition tell (st : Step) : M unit :=
  fun s => (mkState (tape s) (trace s ++ [st]), Ok tt).

(** [randbelow(n)]: the next raw draw reduced below [n]; an exhausted tape
    yields 0. *)
Definition randbelow (n : nat) : M nat :=
  fun s =>
    match tape s with
    | [] => (s, Ok O)
    | r :: t => (mkState t (trace s), Ok (r mod n)%nat)
    end.

Declare Scope run_scope.
Delimit Scope run_scope with run.
Notation "x <- c ;; k" := (bind c (fun x => k))
  (at level 61, c at next level, right associativity) : run_scope.
Notation "c ;;; k" := (bind c (fun _ => k))
  (at level 61, right associativity) : run_scope.

Fixpoint mapM_run {A B} (f : A -> M B) (l : list A) : M (list B) :=
  match l with
  | [] => ret []
  | x :: t => (y <- f x ;; ys <- mapM_run f t ;; ret (y :: ys))%run
  end.


(** *** [random.shuffle] *)

(** [l[i] = v] for an index in range. *)
Fixpoint set_nth {A} (i : nat) (v : A) (l : list A) : list A :=
  match l, i with
  | [], _ => []
  | _ :: t, O => v :: t
  | h :: t, S i' => h :: set_nth i' v t
  end.

(** [x[i], x[j] = x[j], x[i]]: the right-hand side is read first, then both
    cells are written. *)
Definition swap {A} (x : list A) (i j : nat) : list A :=
  match nth_error x j, nth_error x i with
  | Some xj, Some xi => set_nth j xi (set_nth i xj x)
  | _, _ => x
  end.

(** [for i in reversed(range(1, k + 1)): j = randbelow(i + 1); swap]. *)
Fixpoint shuffle_from {A} (k : nat) (x : list A) : M (list A) :=
  match k with
  | O => ret x
  | S k' => (j <- randbelow (S k) ;; shuffle_from k' (swap x k j))%run
  end.

Definition shuffle {A} (x : list A) : M (list A) :=
  shuffle_from (length x - 1) x.

(** *** Train/test split *)

(** [int(len(data) * 0.8)].  The double nearest to 0.8 lies above 0.8 by
    less than 5e-17, so for every length below 2^50 the product truncates to
    the integer quotient of [4 * n] by 5. *)
Definition partition_index (n : nat) : nat := ((4 * n) / 5)%nat.

Definition split {A} (data : list A) : list A * list A :=
  let partition := partition_index (length data) in
  (firstn partition data, skipn partition data).

(** *** Normalisation *)

Definition zero_size_msg : exn :=
  ValueError "zero-size array to reduction operation maximum which has no identity".

(** [ndarray.max()]: raises on a zero-size array. *)
Definition np_max (a : list R) : result R :=
  match a with
  | [] => Raise zero_size_msg
  | x :: t => Ok (fold_left Rmax t x)
  end.

(** [np.array(list(map(lambda x: x[0][:, 3].max(), train))).max()]. *)
Definition max_charge (train : list Labeled) : result R :=
  (maxima <- mapM (fun x => np_max (charges (fst x))) train ;;
   np_max maxima)%result.

(** [for point in e[0]: point[3] = point[3] / max_charge].  Division by a
    zero scale, which numpy answers with inf or nan, is left as the
    unspecified real [c / 0]. *)
Definition scale_event (mc : R) (e : Labeled) : Labeled :=
  (map (fun point => set_pq point (pq point / mc)) (fst e), snd e).

(** [e'] is [e] with every charge divided by [mc] and nothing else changed. *)
Definition scaled (mc : R) (e e' : Labeled) : Prop :=
  snd e' = snd e /\
  Forall2 (fun p p' => px p' = px p /\ py p' = py p /\ pz p' = pz p /\
                       pq p' = pq p / mc) (fst e) (fst e').

(** Lines 81-89 and 305-313: the scale from [train], then both loops. *)
Definition normalize (train test : list Labeled)
  : result (R * list Labeled * list Labeled) :=
  (mc <- max_charge train ;;
   Ok (mc, map (scale_event mc) train, map (scale_event mc) test))%result.

(** *** Rendering one event *)

(** What the plotting backend is asked to draw: the arguments of
    [plt.scatter(x, z, s=0.6, c=c, cmap='Greys')] with the limits set by
    [plt.xlim] and [plt.ylim].  [sc_xlim = None] is the backend's default. *)
Record Scatter : Type := mkScatter {
  sc_x : list R;
  sc_y : list R;
  sc_c : list R;
  sc_xlim : option (R * R);
  sc_ylim : R * R
}.

(** [ValueError('Invalid projection value.')]. *)
Definition invalid_msg : exn := ValueError "Invalid projection value.".

(** The if/elif/else chain that selects the columns.  [zy] and [xy] are the
    two constants the chain compares [projection] with: ['zy'] and ['xy'] in
    [real_labeled] and [real_unlabeled], [1] and [0] in [simulated]. *)
Definition select_columns (zy xy projection : pyval) (e : Event)
  : result (list R * list R * list R) :=
  if py_eqb projection zy then Ok (map pz e, map py e, map pq e)
  else if py_eqb projection xy then Ok (map px e, map py e, map pq e)
  else Raise invalid_msg.

(** The if/elif chain around [plt.xlim]. *)
Definition xlim (zy xy projection : pyval) : option (R * R) :=
  if py_eqb projection zy then Some (0, 1250)
  else if py_eqb projection xy then Some (-275, 275)
  else None.

Definition scatter_call (zy xy projection : pyval) (e : Event) : result Scatter :=
  (cols <- select_columns zy xy projection e ;;
   let '(x, z, c) := cols in
   Ok (mkScatter x z c (xlim zy xy projection) (-275, 275)))%result.

(** [projection] equals neither constant of the selection chain. *)
Definition unmatched (keys : pyval * pyval) (projection : pyval) : Prop :=
  py_eqb projection (fst keys) = false /\ py_eqb projection (snd keys) = false.

Definition real_keys : pyval * pyval := (PStr "zy", PStr "xy").
Definition sim_keys : pyval * pyval := (PInt 1, PInt 0).


(** *** Inputs read from [data_dir] *)

(** A real run: the events of [run_<id>.h5], by event id and in file order,
    each already reduced to the array [event.xyzs(...)] returns, and the rows
    (evt_id, label) of [run_<id>_labels.csv]. *)
Record Run : Type := mkRun {
  run_events : list (Z * Event);
  run_labels : list (Z * string)
}.

(** The part of the file system the save step meets: the paths that exist
    and the paths the process is refused to create or write. *)
Record Disk : Type := mkDisk {
  dk_exists : list string;
  dk_denied : list string
}.

(** What a run finds on disk and in memory. *)
Record Files : Type := mkFiles {
  fs_runs : list (string * Run);          (* by run identifier *)
  fs_proton : option (list Event);        (* [prefix + 'proton.h5'] *)
  fs_carbon : option (list Event);        (* [prefix + 'carbon.h5'] *)
  fs_heap : nat -> Point;                 (* what [np.empty([1, 4])] finds in
                                             the block of the i-th junk event *)
  fs_disk : Disk                          (* where the result is saved *)
}.

(** [os.path.exists(path)]: the empty path never exists. *)
Definition os_path_exists (disk : Disk) (path : string) : bool :=
  if String.eqb path EmptyString then false
  else existsb (String.eqb path) (dk_exists disk).

(** [os.makedirs(path)] on a path that does not exist: the empty path
    cannot be made. *)
Definition os_makedirs (disk : Disk) (path : string) : result unit :=
  if String.eqb path EmptyString
  then Raise (FileNotFoundError "No such file or directory")
  else if existsb (String.eqb path) (dk_denied disk)
       then Raise (PermissionError "Permission denied")
       else Ok tt.

Fixpoint ends_with_slash (path : string) : bool :=
  match path with
  | EmptyString => false
  | String c EmptyString => Ascii.eqb c "/"%char
  | String _ rest => ends_with_slash rest
  end.

(** [os.path.join(a, b)] on POSIX paths. *)
Definition os_path_join (a b : string) : string :=
  if String.prefix "/" b then b
  else if String.eqb a EmptyString then b
  else if ends_with_slash a then a ++ b
  else a ++ "/" ++ b.

(** [h5py.File(filename, 'w')] and the datasets written into it. *)
Definition h5py_create (disk : Disk) (filename : string) : result unit :=
  if existsb (String.eqb filename) (dk_denied disk)
  then Raise (OSError "unable to create file")
  else Ok tt.

(** The lines that every mode ends with:
    [if not os.path.exists(save_path): os.makedirs(save_path)], then the
    file [os.path.join(save_path, prefix + 'images.h5')] is created and
    filled. *)
Definition save_h5 (disk : Disk) (save_path prefix : string) : result unit :=
  (_ <- (if os_path_exists disk save_path then Ok tt
         else os_makedirs disk save_path) ;;
   h5py_create disk (os_path_join save_path (prefix ++ "images.h5")))%result.

(** A disk with an existing directory [out] and nothing refused. *)
Definition open_disk : Disk := mkDisk ["out"] [].

Definition RUNS : list string := ["0130"; "0210"].

Definition open_run (files : Files) (run : string) : result Run :=
  match find (fun kv => String.eqb (fst kv) run) (fs_runs files) with
  | Some kv => Ok (snd kv)
  | None => Raise (OSError "unable to open file")
  end.

Definition open_events (f : option (list Event)) : result (list Event) :=
  match f with
  | Some evs => Ok evs
  | None => Raise (OSError "unable to open file")
  end.

(** [events[str(evt_id)]] followed by [event.xyzs(...)]. *)
Definition get_xyzs (run : Run) (evt_id : Z) : result Event :=
  match find (fun kv => Z.eqb (fst kv) evt_id) (run_events run) with
  | Some kv => Ok (snd kv)
  | None => Raise (KeyError "event not found")
  end.

(** [labels.loc[(labels['label'] == code)]['evt_id'].values]. *)
Definition indices (code : string) (run : Run) : list Z :=
  map fst (filter (fun row => String.eqb (snd row) code) (run_labels run)).

Definition label_events (run : Run) (code : string) (label : Z)
  : result (list Labeled) :=
  mapM (fun evt_id => (xyzs <- get_xyzs run evt_id ;; Ok (xyzs, label))%result)
       (indices code run).

(** The body of [for run in RUNS] in [real_labeled]. *)
Definition ingest_labeled_run (files : Files) (run : string) : result (list Labeled) :=
  (r <- open_run files run ;;
   protons <- label_events r "p" 0%Z ;;
   carbons <- label_events r "c" 1%Z ;;
   junk <- label_events r "j" 2%Z ;;
   Ok (protons ++ carbons ++ junk))%result.

Definition ingest_labeled (files : Files) : result (list Labeled) :=
  (per_run <- mapM (ingest_labeled_run files) RUNS ;; Ok (concat per_run))%result.

(** The body of [for run in RUNS] in [real_unlabeled]. *)
Definition ingest_unlabeled_run (files : Files) (run : string) : result (list Labeled) :=
  (r <- open_run files run ;;
   Ok (map (fun kv => (snd kv, (-1)%Z)) (run_events r)))%result.

Definition ingest_unlabeled (files : Files) : result (list Labeled) :=
  (per_run <- mapM (ingest_unlabeled_run files) RUNS ;; Ok (concat per_run))%result.

(** Inputs used in the examples: a directory with nothing in it; simulated
    files with two one-point proton events and no carbon event; and a real
    directory whose run 0130 holds a proton event 7 and a carbon event 9. *)
Definition no_files : Files := mkFiles [] None None (fun _ => mkPoint 0 0 0 0) open_disk.

Definition two_protons : Files :=
  mkFiles [] (Some [[mkPoint 1 2 3 10]; [mkPoint 4 5 6 100]]) (Some [])
          (fun _ => mkPoint 0 0 0 0) open_disk.

Definition two_labeled : Files :=
  mkFiles [("0130", mkRun [(7%Z, [mkPoint 1 2 3 10]); (9%Z, [mkPoint 4 5 6 100])]
                          [(7%Z, "p"); (9%Z, "c")]);
           ("0210", mkRun [] [])]
          None None (fun _ => mkPoint 0 0 0 0) open_disk.

(** A real directory whose label table names an event 8 that run 0130 does
    not hold. *)
Definition dangling_label : Files :=
  mkFiles [("0130", mkRun [(7%Z, [mkPoint 1 2 3 10])] [(7%Z, "p"); (8%Z, "c")]);
           ("0210", mkRun [] [])]
          None None (fun _ => mkPoint 0 0 0 0) open_disk.

Section Collaborators.

(** The 128 x 128 x 3 array of uint8 of one event, and the plotting backend
    that produces it ([fig.canvas.draw()], the renderer's buffer, the alpha
    channel deleted). *)
Variable Image : Type.
Variable rasterize : Scatter -> Image.

(** [dd.add_noise(xyzs).astype('float32')] of [utils.data_discretization]. *)
Variable add_noise : Event -> Event.

(** [if noise: xyzs = dd.add_noise(xyzs).astype('float32')]. *)
Definition with_noise (noise : bool) (xyzs : Event) : Event :=
  if noise then add_noise xyzs else xyzs.

(** [np.empty([1, 4])]: one row, holding whatever the block holds. *)
Definition np_empty_1x4 (block : Point) : Event := [block].

(** Every coordinate and the charge of every point of [e] are zero. *)
Definition all_zero (e : Event) : Prop :=
  Forall (fun p => px p = 0 /\ py p = 0 /\ pz p = 0 /\ pq p = 0) e.

(** [for i in range(num_events): ... data.append([xyzs, 2])]. *)
Definition junk_events (noise : bool) (num_events : Z) (heap : nat -> Point)
  : list Labeled :=
  map (fun i => (with_noise noise (np_empty_1x4 (heap i)), 2%Z))
      (seq 0 (Z.to_nat num_events)).

(** Lines 248-290 of [simulated]. *)
Definition ingest_simulated (noise : bool) (num_events : Z) (files : Files)
  : result (list Labeled) :=
  (proton_events <- open_events (fs_proton files) ;;
   carbon_events <- open_events (fs_carbon files) ;;
   Ok (map (fun xyzs => (with_noise noise xyzs, 0%Z)) proton_events
       ++ map (fun xyzs => (with_noise noise xyzs, 1%Z)) carbon_events
       ++ junk_events noise num_events (fs_heap files)))%result.

(** One pass of a rendering loop: the image of the event and its label. *)
Definition render_event (keys : pyval * pyval) (projection : pyval)
  (event : Labeled) : M (Image * Z) :=
  (call <- lift (scatter_call (fst keys) (snd keys) projection (fst event)) ;;
   tell StRender ;;;
   ret (rasterize call, snd event))%run.

(** [for i, event in enumerate(part): ...] filling a features array and a
    targets array. *)
Definition render_all (keys : pyval * pyval) (projection : pyval)
  (part : list Labeled) : M (list Image * list Z) :=
  (rendered <- mapM_run (render_event keys projection) part ;;
   ret (map fst rendered, map snd rendered))%run.

(** The file [<prefix>images.h5] of a labeled run. *)
Record LabeledSet : Type := mkLabeledSet {
  train_features : list Image;
  train_targets : list Z;
  test_features : list Image;
  test_targets : list Z;
  saved_max_charge : R
}.

(** The file of an unlabeled run. *)
Record UnlabeledSet : Type := mkUnlabeledSet {
  images : list Image;
  unlabeled_max_charge : R
}.


(** The split, the normalisation, the two rendering loops and the save, as
    [real_labeled] (lines 75-169) and [simulated] (lines 300-389) both have
    them; the two differ in the constants [keys] of the projection test.
    The save makes [save_path] if it does not exist and creates the file,
    and either step can raise; the dataset returned is what the file then
    holds. *)
Definition finish_labeled (disk : Disk) (save_path prefix : string)
  (keys : pyval * pyval) (projection : pyval)
  (data : list Labeled) : M LabeledSet :=
  (tell StSplit ;;;
   let '(train, test) := split data in
   tell StNormalize ;;;
   normalized <- lift (normalize train test) ;;
   let '(mc, train, test) := normalized in
   train_set <- render_all keys projection train ;;
   test_set <- render_all keys projection test ;;
   tell StSave ;;;
   lift (save_h5 disk save_path prefix) ;;;
   ret (mkLabeledSet (fst train_set) (snd train_set)
                     (fst test_set) (snd test_set) mc))%run.

(** [real_labeled] from line 66 on, on the list [data] the ingestion built. *)
Definition real_labeled_stages (disk : Disk) (save_path prefix : string)
  (projection : pyval) (data : list Labeled) : M LabeledSet :=
  (tell StLog ;;;
   data <- lift (log_stage data) ;;
   tell StShuffle ;;;
   data <- shuffle data ;;
   data <- shuffle data ;;
   finish_labeled disk save_path prefix real_keys projection data)%run.

(** [real_labeled(projection, data_dir, save_path, prefix)]; [files] is what
    [data_dir] holds. *)
Definition real_labeled (projection : pyval) (files : Files)
  (save_path prefix : string) : M LabeledSet :=
  (tell StIngest ;;;
   data <- lift (ingest_labeled files) ;;
   real_labeled_stages (fs_disk files) save_path prefix projection data)%run.

(** [real_unlabeled] from line 185 on. *)
Definition real_unlabeled_stages (disk : Disk) (save_path prefix : string)
  (projection : pyval) (data : list Labeled) : M UnlabeledSet :=
  (tell StLog ;;;
   data <- lift (log_stage data) ;;
   tell StShuffle ;;;
   data <- shuffle data ;;
   data <- shuffle data ;;
   tell StNormalize ;;;
   mc <- lift (max_charge data) ;;
   let data := map (scale_event mc) data in
   rendered <- render_all real_keys projection data ;;
   tell StSave ;;;
   lift (save_h5 disk save_path prefix) ;;;
   ret (mkUnlabeledSet (fst rendered) mc))%run.

Definition real_unlabeled (projection : pyval) (files : Files)
  (save_path prefix : string) : M UnlabeledSet :=
  (tell StIngest ;;;
   data <- lift (ingest_unlabeled files) ;;
   real_unlabeled_stages (fs_disk files) save_path prefix projection data)%run.

(** [simulated] from line 292 on. *)
Definition simulated_stages (disk : Disk) (save_path prefix : string)
  (projection : pyval) (data : list Labeled) : M LabeledSet :=
  (tell StLog ;;;
   data <- lift (log_stage data) ;;
   tell StShuffle ;;;
   data <- shuffle data ;;
   finish_labeled disk save_path prefix sim_keys projection data)%run.

Definition simulated (projection : pyval) (noise : bool) (num_events : Z)
  (files : Files) (save_path prefix : string) : M LabeledSet :=
  (tell StIngest ;;;
   data <- lift (ingest_simulated noise num_events files) ;;
   simulated_stages (fs_disk files) save_path prefix projection data)%run.

(** *** The command line *)

Record Args : Type := mkArgs {
  arg_type : string;
  arg_projection : string;
  arg_labeled : bool;
  arg_noise : bool;
  arg_num_events : Z;
  arg_save_path : string;   (* [--save_path], by default the empty string *)
  arg_prefix : string       (* [--prefix], by default the empty string *)
}.

Inductive Output : Type :=
| OutLabeled (d : LabeledSet)
| OutUnlabeled (d : UnlabeledSet).

(** [click.Choice(choices)]: a value outside [choices] is refused while the
    arguments are parsed, before the command's function is called. *)
Definition click_choice (choices : list string) (value : string) : result string :=
  if existsb (String.eqb value) choices then Ok value
  else Raise (UsageError "invalid choice").

Definition main (args : Args) (files : Files) : M Output :=
  (type <- lift (click_choice ["real"; "sim"] (arg_type args)) ;;
   projection <- lift (click_choice ["xy"; "zy"] (arg_projection args)) ;;
   if String.eqb type "real" then
     if arg_labeled args then
       d <- real_labeled (PStr projection) files
                         (arg_save_path args) (arg_prefix args) ;;
       ret (OutLabeled d)
     else
       d <- real_unlabeled (PStr projection) files
                           (arg_save_path args) (arg_prefix args) ;;
       ret (OutUnlabeled d)
   else
     d <- simulated (PStr projection) (arg_noise args) (arg_num_events args) files
                    (arg_save_path args) (arg_prefix args) ;;
     ret (OutLabeled d))%run.

End Collaborators.

(** A run of the script from a tape of raw random draws. *)
Definition run {A} (m : M A) (draws : list nat) : State * result A :=
  m (mkState draws []).

End GenerateImages.

(** ** src/utils/data.py *)

Module Data.

Local Open Scope Z_scope.

Definition CLASS_NAMES : list string := ["proton"; "carbon"; "junk"].

(** [enumerate(l)]. *)
Definition enumerate {A} (l : list A) : list (nat * A) :=
  combine (seq 0 (length l)) l.

(** [CLASS_NAMES[i]] for an index that [enumerate] produced. *)
Definition class_name (i : nat) : result string :=
  match nth_error CLASS_NAMES i with
  | Some name => Ok name
  | None => Raise (IndexError "list index out of range")
  end.

(** [a] may stand before [b] in a list ordered by decreasing probability. *)
Definition desc (a b : string * Q) : Prop := (snd b <= snd a)%Q.

(** One step of a stable sort by decreasing probability: [o], which stood
    before every element of [l], stays before those of equal probability. *)
Fixpoint insert_desc (o : string * Q) (l : list (string * Q)) : list (string * Q) :=
  match l with
  | [] => [o]
  | h :: t => if Qle_bool (snd h) (snd o) then o :: h :: t
              else h :: insert_desc o t
  end.

(** [decoded.sort(key=lambda o: o[1], reverse=True)]: [list.sort] is stable,
    also with [reverse=True]. *)
Definition sort_desc (l : list (string * Q)) : list (string * Q) :=
  fold_right insert_desc [] l.

(** [l[:k]]: a negative [k] counts from the end. *)
Definition slice_to {A} (l : list A) (k : Z) : list A :=
  if 0 <=? k then firstn (Z.to_nat k) l
  else firstn (Z.to_nat (Z.of_nat (length l) + k)) l.

Definition decode_predictions (preds : list Q) (top : Z)
  : result (list (string * Q)) :=
  (decoded <- mapM (fun ip => name <- class_name (fst ip) ;; Ok (name, snd ip))
                   (enumerate preds) ;;
   let decoded := sort_desc decoded in
   let top := Z.min top (Z.of_nat (length decoded)) in
   Ok (slice_to decoded top))%result.

(** An image as stored: rows, columns, channels of uint8. *)
Definition Image : Type := list (list (list Z)).

(** The datasets of an HDF5 file that the loader looks at; [None] is a name
    the file does not have. *)
Record H5File : Type := mkH5 {
  h5_images : option (list Image);
  h5_train_features : option (list Image);
  h5_train_targets : option (list Z);
  h5_test_features : option (list Image);
  h5_test_targets : option (list Z);
  h5_max_charge : option (list Q)
}.

(** [h5[name][:]]. *)
Definition dataset {A} (d : option (list A)) : result (list A) :=
  match d with
  | Some a => Ok a
  | None => Raise (KeyError "unable to open object")
  end.

Inductive features : Type :=
| FImages (x : list Image)
| FFlat (x : list (list Z)).

Inductive targets : Type :=
| TLabels (y : list Z)
| TOneHot (y : list (list Z)).

Inductive loaded : Type :=
| LImages (x : list Image)
| LPair (train test : features * targets)
| LTriple (train test : features * targets) (mc : Q).

(** [np.unique(a).shape[0]]. *)
Definition count_unique (a : list Z) : Z :=
  Z.of_nat (length (nodup Z.eq_dec a)).

(** The loop [for i in range(t.shape[0]): if t[i] != 0: t[i] = 1]. *)
Definition collapse (t : list Z) : list Z :=
  map (fun label => if label =? 0 then label else 1) t.

(** A row of [num_classes] zeros with a one in column [j]. *)
Definition unit_row (num_classes : Z) (j : Z) : list Z :=
  map (fun c => if Z.of_nat c =? j then 1 else 0) (seq 0 (Z.to_nat num_classes)).

(** The row that [categorical[np.arange(n), y] = 1] writes for one label:
    an index is valid from [-num_classes] to [num_classes - 1], a negative
    one counting from the end. *)
Definition one_hot (num_classes : Z) (i : Z) : result (list Z) :=
  if (0 <=? i) && (i <? num_classes) then Ok (unit_row num_classes i)
  else if (- num_classes <=? i) && (i <? 0) then Ok (unit_row num_classes (i + num_classes))
  else Raise (IndexError "index is out of bounds for axis 1").

(** [row] is the one-hot vector of length [k] for label [i]: a one at index
    [i] and zeros elsewhere. *)
Definition is_one_hot (k i : Z) (row : list Z) : Prop :=
  Z.of_nat (length row) = k /\
  forall j, 0 <= j < k -> nth (Z.to_nat j) row 0 = if j =? i then 1 else 0.

(** What [binary=True] does to one label. *)
Definition collapsed (label label' : Z) : Prop :=
  (label = 0 -> label' = 0) /\ (label <> 0 -> label' = 1).

(** [np.max(y)] on integers. *)
Definition np_max_int (y : list Z) : result Z :=
  match y with
  | [] => Raise (ValueError "zero-size array to reduction operation maximum which has no identity")
  | h :: t => Ok (fold_left Z.max t h)
  end.

(** [tensorflow.keras.utils.to_categorical(y, num_classes)]:
    [if not num_classes: num_classes = np.max(y) + 1], then an array of zeros
    of shape (n, num_classes) with the ones written by fancy indexing. *)
Definition to_categorical (y : list Z) (num_classes : Z) : result (list (list Z)) :=
  (num_classes <- (if num_classes =? 0
                   then (m <- np_max_int y ;; Ok (m + 1))
                   else Ok num_classes) ;;
   if num_classes <? 0 then Raise (ValueError "negative dimensions are not allowed")
   else mapM (one_hot num_classes) y)%result.

(** [np.reshape(x, (len(x), -1))]: the unknown dimension cannot be inferred
    for an array of size 0. *)
Definition reshape_flat (x : list Image) : result (list (list Z)) :=
  match x with
  | [] => Raise (ValueError "cannot reshape array of size 0")
  | _ => Ok (map (fun img => concat (concat img)) x)
  end.

Definition load_image_h5 (h5 : H5File)
  (categorical flatten max_charge binary : bool) : result loaded :=
  match h5_images h5 with
  | Some imgs => Ok (LImages imgs)
  | None =>
    (train_features <- dataset (h5_train_features h5) ;;
     train_targets <- dataset (h5_train_targets h5) ;;
     test_features <- dataset (h5_test_features h5) ;;
     test_targets <- dataset (h5_test_targets h5) ;;
     mcs <- dataset (h5_max_charge h5) ;;
     mc <- match mcs with
           | m :: _ => Ok m
           | [] => Raise (IndexError "index 0 is out of bounds")
           end ;;
     let num_categories := count_unique train_targets in
     let '(train_targets, test_targets, num_categories) :=
       if binary then (collapse train_targets, collapse test_targets, 2)
       else (train_targets, test_targets, num_categories) in
     ys <- (if categorical
            then (tr <- to_categorical train_targets num_categories ;;
                  te <- to_categorical test_targets num_categories ;;
                  Ok (TOneHot tr, TOneHot te))
            else Ok (TLabels train_targets, TLabels test_targets)) ;;
     xs <- (if flatten
            then (tr <- reshape_flat train_features ;;
                  te <- reshape_flat test_features ;;
                  Ok (FFlat tr, FFlat te))
            else Ok (FImages train_features, FImages test_features)) ;;
     if max_charge
     then Ok (LTriple (fst xs, fst ys) (snd xs, snd ys) mc)
     else Ok (LPair (fst xs, fst ys) (snd xs, snd ys)))%result
  end.

(** The targets of a loaded labeled dataset, train then test. *)
Definition loaded_targets (l : loaded) : option (targets * targets) :=
  match l with
  | LImages _ => None
  | LPair train test => Some (snd train, snd test)
  | LTriple train test _ => Some (snd train, snd test)
  end.

(** The file a labeled run of the generator writes. *)
Definition labeled_file (train_features : list Image) (train_targets : list Z)
  (test_features : list Image) (test_targets : list Z) (mc : Q) : H5File :=
  mkH5 None (Some train_features) (Some train_targets)
       (Some test_features) (Some test_targets) (Some [mc]).

(** Inputs used in the examples: a probability vector, a file that lacks its
    train targets, and a file of two train images and one test image of one
    pixel each. *)
Definition probs : list Q := [7 # 10; 2 # 10; 1 # 10]%Q.

Definition no_targets : H5File :=
  mkH5 None (Some []) None (Some []) (Some []) (Some [1%Q]).

Definition pixel_file : H5File :=
  labeled_file [[[[1; 2; 3]]]; [[[4; 5; 6]]]] [0; 1] [[[[7; 8; 9]]]] [1] 1%Q.

(** [img] has shape (rows, cols, channels). *)
Definition shaped (rows cols channels : nat) (img : Image) : Prop :=
  length img = rows /\
  Forall (fun row => length row = cols /\
                     Forall (fun pixel => length pixel = channels) row) img.

(** The features of a loaded labeled dataset, train then test. *)
Definition loaded_features (l : loaded) : option (features * features) :=
  match l with
  | LImages _ => None
  | LPair train test => Some (fst train, fst test)
  | LTriple train test _ => Some (fst train, fst test)
  end.

End Data.
Lemma mapM_length {A B} (f : A -> result B) (l : list A) (r : list B) :
  mapM f l = Ok r -> length r = length l.
Proof.
  revert r; induction l as [|x t IH]; simpl; intros r H.
  - now inversion H.
  - destruct (f x) as [y|e]; simpl in H; [|discriminate].
    destruct (mapM f t) as [ys|e]; simpl in H; [|discriminate].
    inversion H; subst; simpl. now rewrite (IH ys eq_refl).
Qed.

Lemma mapM_ok_map {A B} (f : A -> result B) (g : A -> B) (l : list A) :
  (forall x, In x l -> f x = Ok (g x)) -> mapM f l = Ok (map g l).
Proof.
  induction l as [|x t IH]; simpl; intros H; [reflexivity|].
  rewrite (H x (or_introl eq_refl)); simpl.
  rewrite IH by (intros y Hy; apply H; now right). reflexivity.
Qed.

Lemma mapM_raise_in {A B} (f : A -> result B) (l : list A) (e : exn) :
  mapM f l = Raise e -> exists x, In x l /\ f x = Raise e.
Proof.
  induction l as [|x t IH]; simpl; intros H; [discriminate|].
  destruct (f x) as [y|e'] eqn:Hx; simpl in H.
  - destruct (mapM f t) as [ys|e'']; simpl in H; [discriminate|].
    destruct IH as [z [Hz Hfz]]; [congruence|]. exists z; auto.
  - exists x; split; [now left | congruence].
Qed.

Lemma mapM_exists_raise {A B} (f : A -> result B) (l : list A) :
  Exists (fun x => is_ok (f x) = false) l -> is_ok (mapM f l) = false.
Proof.
  induction 1 as [x t Hx | x t _ IH]; simpl.
  - destruct (f x); [discriminate | reflexivity].
  - destruct (f x); simpl; [|reflexivity].
    destruct (mapM f t); simpl; [discriminate | reflexivity].
Qed.

(** ** Facts about the loader ([src/utils/data.py]) *)

Section LoaderFacts.

Import Data.
Local Open Scope Z_scope.

Lemma insert_desc_perm (o : string * Q) (l : list (string * Q)) :
  Permutation (insert_desc o l) (o :: l).
Proof.
  induction l as [|h t IH]; simpl; [apply Permutation_refl|].
  destruct (Qle_bool (snd h) (snd o)); [apply Permutation_refl|].
  eapply perm_trans; [apply perm_skip, IH | apply perm_swap].
Qed.

Lemma sort_desc_perm (l : list (string * Q)) : Permutation (sort_desc l) l.
Proof.
  induction l as [|o t IH]; simpl; [constructor|].
  eapply perm_trans; [apply insert_desc_perm | now apply perm_skip].
Qed.

Lemma insert_desc_sorted (o : string * Q) (l : list (string * Q)) :
  StronglySorted desc l -> StronglySorted desc (insert_desc o l).
Proof.
  induction 1 as [|h t Hs IH Hall]; simpl.
  - repeat constructor.
  - destruct (Qle_bool (snd h) (snd o)) eqn:Hc.
    + apply Qle_bool_iff in Hc. constructor; [now constructor|].
      constructor; [exact Hc|].
      eapply Forall_impl; [|exact Hall]. unfold desc; intros x Hx.
      eapply Qle_trans; eassumption.
    + constructor; [exact IH|].
      assert (Ho : desc h o).
      { unfold desc. destruct (Qlt_le_dec (snd o) (snd h)) as [Hlt|Hle].
        - now apply Qlt_le_weak.
        - apply Qle_bool_iff in Hle. congruence. }
      eapply Permutation_Forall;
        [apply Permutation_sym, insert_desc_perm | now constructor].
Qed.

Lemma sort_desc_sorted (l : list (string * Q)) : StronglySorted desc (sort_desc l).
Proof.
  induction l as [|o t IH]; simpl; [constructor | now apply insert_desc_sorted].
Qed.

Lemma decoded_names (preds : list Q) :
  (length preds <= 3)%nat ->
  mapM (fun ip => (name <- class_name (fst ip) ;; Ok (name, snd ip))%result)
       (enumerate preds)
  = Ok (combine CLASS_NAMES preds).
Proof.
  destruct preds as [|a [|b [|c [|d t]]]]; simpl; intros H; try reflexivity; lia.
Qed.

Lemma decoded_too_long (preds : list Q) (top : Z) :
  (3 < length preds)%nat ->
  decode_predictions preds top = Raise (IndexError "list index out of range").
Proof.
  destruct preds as [|a [|b [|c [|d t]]]]; simpl; intros H; try lia.
  reflexivity.
Qed.

(** C8.  For a probability vector over the three class names (at most three
    entries, so that every index has a name) and a requested count [top >= 0],
    [decode_predictions] returns the first [min top (len preds)] pairs of a
    list [ranked] that holds exactly the pairs (name, probability) and is
    ordered by decreasing probability; and on [0.7, 0.2, 0.1] with [top = 2]
    it returns [('proton', 0.7), ('carbon', 0.2)]. *)
Theorem decode_predictions_top_k :
  (forall (preds : list Q) (top : Z),
      (length preds <= 3)%nat -> 0 <= top ->
      exists ranked,
        Permutation ranked (combine CLASS_NAMES preds) /\
        StronglySorted desc ranked /\
        decode_predictions preds top
        = Ok (firstn (Z.to_nat (Z.min top (Z.of_nat (length preds)))) ranked)) /\
  decode_predictions [7 # 10; 2 # 10; 1 # 10]%Q 2
  = Ok [("proton", 7 # 10); ("carbon", 2 # 10)]%Q.
Proof.
  split; [|reflexivity].
  intros preds top Hlen Htop.
  exists (sort_desc (combine CLASS_NAMES preds)).
  split; [apply sort_desc_perm|]. split; [apply sort_desc_sorted|].
  unfold decode_predictions. rewrite (decoded_names preds Hlen).
  cbv beta iota zeta delta [rbind]. unfold slice_to.
  assert (Hl : length (sort_desc (combine CLASS_NAMES preds)) = length preds).
  { rewrite (Permutation_length (sort_desc_perm _)), length_combine.
    unfold CLASS_NAMES; simpl length. lia. }
  rewrite Hl.
  destruct (Z.leb_spec 0 (Z.min top (Z.of_nat (length preds)))); [reflexivity | lia].
Qed.

Lemma decode_predictions_top_k_witness :
  (length [7 # 10; 2 # 10; 1 # 10]%Q <= 3)%nat /\ 0 <= 2 /\
  exists ranked,
    Permutation ranked (combine CLASS_NAMES [7 # 10; 2 # 10; 1 # 10]%Q) /\
    StronglySorted desc ranked /\
    decode_predictions [7 # 10; 2 # 10; 1 # 10]%Q 2
    = Ok (firstn (Z.to_nat (Z.min 2 (Z.of_nat (length [7 # 10; 2 # 10; 1 # 10]%Q)))) ranked).
Proof.
  assert (H1 : (length [7 # 10; 2 # 10; 1 # 10]%Q <= 3)%nat) by (simpl; lia).
  assert (H2 : 0 <= 2) by lia.
  split; [exact H1|]. split; [exact H2|].
  exact (proj1 decode_predictions_top_k [7 # 10; 2 # 10; 1 # 10]%Q 2 H1 H2).
Defined.


(** A negative [top] is not a count: the slice then drops entries from the
    end of the ranking. *)
Example decode_predictions_negative_top :
  decode_predictions [7 # 10; 2 # 10; 1 # 10]%Q (-1)
  = Ok [("proton", 7 # 10); ("carbon", 2 # 10)]%Q.
Proof. reflexivity. Qed.

Lemma collapse_collapsed (t : list Z) : Forall2 collapsed t (collapse t).
Proof.
  induction t as [|l t IH]; simpl; constructor; [|exact IH].
  unfold collapsed. destruct (Z.eqb_spec l 0); split; intros; congruence.
Qed.

Lemma collapse_binary (t : list Z) : Forall (fun l => l = 0 \/ l = 1) (collapse t).
Proof.
  induction t as [|l t IH]; simpl; constructor; [|exact IH].
  destruct (Z.eqb_spec l 0); auto.
Qed.

Lemma one_hot_in_range (k i : Z) : 0 <= i < k -> one_hot k i = Ok (unit_row k i).
Proof.
  intros [H0 Hk]. unfold one_hot.
  destruct (Z.leb_spec 0 i); [|lia]. destruct (Z.ltb_spec i k); [|lia]. reflexivity.
Qed.

Lemma unit_row_one_hot (k i : Z) : 0 <= k -> is_one_hot k i (unit_row k i).
Proof.
  intros Hk. unfold is_one_hot, unit_row. split.
  - rewrite length_map, length_seq. lia.
  - intros j Hj.
    set (f := fun c : nat => if Z.of_nat c =? i then 1 else 0).
    rewrite (nth_indep _ 0 (f O)) by (rewrite length_map, length_seq; lia).
    rewrite map_nth, seq_nth by lia. unfold f; simpl. now rewrite Z2Nat.id by lia.
Qed.

Lemma to_categorical_in_range (y : list Z) (k : Z) :
  0 < k -> Forall (fun i => 0 <= i < k) y ->
  to_categorical y k = Ok (map (unit_row k) y) /\
  Forall2 (is_one_hot k) y (map (unit_row k) y).
Proof.
  intros Hk Hy. unfold to_categorical.
  destruct (Z.eqb_spec k 0); [lia|]. cbv beta iota delta [rbind].
  destruct (Z.ltb_spec k 0); [lia|]. split.
  - apply mapM_ok_map. intros i Hi. apply one_hot_in_range.
    rewrite Forall_forall in Hy. now apply Hy.
  - clear Hy. induction y as [|i y IH]; simpl; constructor; [|exact IH].
    apply unit_row_one_hot; lia.
Qed.

Lemma count_unique_pos (y : list Z) : y <> [] -> 0 < count_unique y.
Proof.
  destruct y as [|i y]; [congruence|]. intros _. unfold count_unique.
  assert (Hin : In i (nodup Z.eq_dec (i :: y))) by (apply nodup_In; now left).
  destruct (nodup Z.eq_dec (i :: y)); [contradiction | simpl; lia].
Qed.


(** C6.  On the file of a labeled run, the loader called with [binary=True]
    returns train and test targets in which every label 0 is 0 and every
    other label is 1, so that all returned labels are 0 or 1; with
    [categorical=True] as well, the rows have the two columns of that label
    space. *)
Theorem binary_collapses_labels :
  forall (trX : list Image) (trY : list Z) (teX : list Image) (teY : list Z)
         (mc : Q) (max_charge : bool),
  exists r trY' teY',
    load_image_h5 (labeled_file trX trY teX teY mc) false false max_charge true
    = Ok r /\
    loaded_targets r = Some (TLabels trY', TLabels teY') /\
    Forall2 collapsed trY trY' /\
    Forall2 collapsed teY teY' /\
    Forall (fun l => l = 0 \/ l = 1) (trY' ++ teY') /\
    exists r2 tr te,
      load_image_h5 (labeled_file trX trY teX teY mc) true false max_charge true
      = Ok r2 /\
      loaded_targets r2 = Some (TOneHot tr, TOneHot te) /\
      Forall2 (is_one_hot 2) trY' tr /\ Forall2 (is_one_hot 2) teY' te.
Proof.
  intros trX trY teX teY mc flag.
  assert (Hr : forall t, Forall (fun i => 0 <= i < 2) (collapse t)).
  { intros t. eapply Forall_impl; [|apply collapse_binary]. simpl; lia. }
  destruct (to_categorical_in_range (collapse trY) 2 ltac:(lia) (Hr trY)) as [Etr Htr].
  destruct (to_categorical_in_range (collapse teY) 2 ltac:(lia) (Hr teY)) as [Ete Hte].
  exists (if flag
          then LTriple (FImages trX, TLabels (collapse trY))
                       (FImages teX, TLabels (collapse teY)) mc
          else LPair (FImages trX, TLabels (collapse trY))
                     (FImages teX, TLabels (collapse teY))).
  exists (collapse trY), (collapse teY).
  split; [destruct flag; reflexivity|].
  split; [destruct flag; reflexivity|].
  split; [apply collapse_collapsed|]. split; [apply collapse_collapsed|].
  split; [apply Forall_app; split; apply collapse_binary|].
  exists (if flag
          then LTriple (FImages trX, TOneHot (map (unit_row 2) (collapse trY)))
                       (FImages teX, TOneHot (map (unit_row 2) (collapse teY))) mc
          else LPair (FImages trX, TOneHot (map (unit_row 2) (collapse trY)))
                     (FImages teX, TOneHot (map (unit_row 2) (collapse teY)))).
  exists (map (unit_row 2) (collapse trY)), (map (unit_row 2) (collapse teY)).
  split.
  - unfold load_image_h5, labeled_file; simpl.
    rewrite Etr, Ete. destruct flag; reflexivity.
  - split; [destruct flag; reflexivity|]. split; assumption.
Qed.

(** C7, as the specification states it, fails: with train labels 0 and 2
    there are two distinct labels, and the loader raises instead of placing
    a one at index 2. *)
Lemma categorical_raises_on_gap :
  load_image_h5 (labeled_file [] [0; 2] [] [] 1%Q) true false false false
  = Raise (IndexError "index is out of bounds for axis 1") /\
  ~ (exists r tr te,
        load_image_h5 (labeled_file [] [0; 2] [] [] 1%Q) true false false false = Ok r /\
        loaded_targets r = Some (TOneHot tr, TOneHot te) /\
        Forall2 (is_one_hot (count_unique [0; 2])) [0; 2] tr).
Proof.
  split; [reflexivity|].
  intros [r [tr [te [H _]]]]. vm_compute in H. discriminate.
Qed.

(** C7, amended.  With [categorical=True] (and [binary] off), on a labeled
    file that has at least one train label and whose train and test labels
    all lie in [0, k), where [k] is the number of distinct train labels, each
    label [i] is returned as the one-hot vector of length [k] with a one at
    index [i]. *)
Theorem categorical_one_hot_in_range :
  forall (trX : list Image) (trY : list Z) (teX : list Image) (teY : list Z)
         (mc : Q) (max_charge : bool),
    trY <> [] ->
    Forall (fun i => 0 <= i < count_unique trY) (trY ++ teY) ->
    exists r tr te,
      load_image_h5 (labeled_file trX trY teX teY mc) true false max_charge false
      = Ok r /\
      loaded_targets r = Some (TOneHot tr, TOneHot te) /\
      Forall2 (is_one_hot (count_unique trY)) trY tr /\
      Forall2 (is_one_hot (count_unique trY)) teY te.
Proof.
  intros trX trY teX teY mc flag Hne Hall.
  apply Forall_app in Hall. destruct Hall as [Htr Hte].
  pose proof (count_unique_pos trY Hne) as Hk.
  destruct (to_categorical_in_range trY _ Hk Htr) as [Etr Otr].
  destruct (to_categorical_in_range teY _ Hk Hte) as [Ete Ote].
  exists (if flag
          then LTriple (FImages trX, TOneHot (map (unit_row (count_unique trY)) trY))
                       (FImages teX, TOneHot (map (unit_row (count_unique trY)) teY)) mc
          else LPair (FImages trX, TOneHot (map (unit_row (count_unique trY)) trY))
                     (FImages teX, TOneHot (map (unit_row (count_unique trY)) teY))).
  exists (map (unit_row (count_unique trY)) trY), (map (unit_row (count_unique trY)) teY).
  split.
  - unfold load_image_h5, labeled_file.
    cbv beta iota zeta delta [h5_images h5_train_features h5_train_targets
      h5_test_features h5_test_targets h5_max_charge dataset rbind].
    rewrite Etr, Ete. destruct flag; reflexivity.
  - split; [destruct flag; reflexivity|]. split; assumption.
Qed.

Lemma categorical_one_hot_in_range_witness :
  [0; 1; 1] <> [] /\
  Forall (fun i => 0 <= i < count_unique [0; 1; 1]) ([0; 1; 1] ++ [1; 0]) /\
  exists r tr te,
    load_image_h5 (labeled_file [] [0; 1; 1] [] [1; 0] 1%Q) true false false false
    = Ok r /\
    loaded_targets r = Some (TOneHot tr, TOneHot te) /\
    Forall2 (is_one_hot (count_unique [0; 1; 1])) [0; 1; 1] tr /\
    Forall2 (is_one_hot (count_unique [0; 1; 1])) [1; 0] te.
Proof.
  assert (H1 : [0; 1; 1] <> []) by discriminate.
  assert (H2 : Forall (fun i => 0 <= i < count_unique [0; 1; 1]) ([0; 1; 1] ++ [1; 0])).
  { repeat constructor; vm_compute; congruence. }
  split; [exact H1|]. split; [exact H2|].
  exact (categorical_one_hot_in_range [] [0; 1; 1] [] [1; 0] 1%Q false H1 H2).
Defined.

End LoaderFacts.

(** ** Facts about the generator ([src/data-processing/generate_images.py]) *)

Section GeneratorFacts.

Import GenerateImages.

(** *** The shuffle is a permutation and the split keeps every event *)

Lemma nth_error_set_nth_eq {A} (l : list A) (i : nat) (v a : A) :
  nth_error l i = Some a -> nth_error (set_nth i v l) i = Some v.
Proof.
  revert i; induction l as [|h t IH]; intros [|i]; simpl; intros H;
    try discriminate; [reflexivity | now apply IH].
Qed.

Lemma nth_error_set_nth_neq {A} (l : list A) (i j : nat) (v : A) :
  i <> j -> nth_error (set_nth i v l) j = nth_error l j.
Proof.
  revert i j; induction l as [|h t IH]; intros [|i] [|j] H; simpl;
    try reflexivity; try congruence.
  apply IH; congruence.
Qed.

Lemma length_set_nth {A} (l : list A) (i : nat) (v : A) :
  length (set_nth i v l) = length l.
Proof.
  revert i; induction l as [|h t IH]; intros [|i]; simpl; auto.
Qed.

(** Overwriting the cell that held [a] with [v] trades [a] for [v]. *)
Lemma set_nth_trade {A} (l : list A) (i : nat) (v a : A) :
  nth_error l i = Some a -> Permutation (v :: l) (a :: set_nth i v l).
Proof.
  revert i; induction l as [|h t IH]; intros [|i]; simpl; intros H;
    try discriminate.
  - inversion H; subst. apply perm_swap.
  - eapply perm_trans; [apply perm_swap|].
    eapply perm_trans; [apply perm_skip, IH, H|]. apply perm_swap.
Qed.

Lemma swap_perm {A} (x : list A) (i j : nat) : Permutation (swap x i j) x.
Proof.
  unfold swap.
  destruct (nth_error x j) as [xj|] eqn:Hj; [|apply Permutation_refl].
  destruct (nth_error x i) as [xi|] eqn:Hi; [|apply Permutation_refl].
  pose proof (set_nth_trade x i xj xi Hi) as H1.
  assert (Hj' : nth_error (set_nth i xj x) j = Some xj).
  { destruct (Nat.eq_dec i j) as [->|Hne].
    - eapply nth_error_set_nth_eq; eassumption.
    - now rewrite nth_error_set_nth_neq. }
  pose proof (set_nth_trade _ j xi xj Hj') as H2.
  apply Permutation_sym, (Permutation_cons_inv (a := xj)).
  eapply perm_trans; [exact H1 | exact H2].
Qed.

Lemma shuffle_from_spec {A} (k : nat) (x : list A) (s : State) :
  exists x' rest,
    shuffle_from k x s = (mkState rest (trace s), Ok x') /\ Permutation x' x.
Proof.
  revert x s; induction k as [|k IH]; intros x s; simpl.
  - exists x, (tape s). destruct s; simpl. split; [reflexivity | apply Permutation_refl].
  - unfold bind, randbelow.
    destruct (tape s) as [|r t] eqn:Ht.
    + destruct (IH (swap x (S k) 0) s) as [x' [rest [E P]]].
      exists x', rest. split; [exact E|].
      eapply perm_trans; [exact P | apply swap_perm].
    + destruct (IH (swap x (S k) (r mod S (S k))) (mkState t (trace s)))
        as [x' [rest [E P]]].
      exists x', rest. split; [exact E|].
      eapply perm_trans; [exact P | apply swap_perm].
Qed.

Lemma shuffle_spec {A} (x : list A) (s : State) :
  exists x' rest,
    shuffle x s = (mkState rest (trace s), Ok x') /\ Permutation x' x.
Proof. apply shuffle_from_spec. Qed.

Lemma partition_index_le (n : nat) : (partition_index n <= n)%nat.
Proof.
  unfold partition_index. apply Nat.Div0.div_le_upper_bound. lia.
Qed.

Lemma split_spec {A} (data : list A) :
  let '(train, test) := split data in
  length train = partition_index (length data) /\
  length test = (length data - partition_index (length data))%nat /\
  train ++ test = data.
Proof.
  unfold split. pose proof (partition_index_le (length data)).
  rewrite length_firstn, length_skipn, firstn_skipn. repeat split; lia.
Qed.

(** C3.  In [real_labeled] (two shuffles) and in [simulated] (one), whatever
    the random draws, the shuffles return, and the split of the shuffled list
    puts its first [floor(0.8 * N)] events in train and the remaining
    [N - floor(0.8 * N)] in test, and train followed by test is a permutation
    of the input collection. *)
Theorem split_sizes_and_permutation :
  forall (data : list Labeled) (s : State),
    let N := length data in
    (exists d1 s1 d2 s2,
        shuffle data s = (s1, Ok d1) /\ shuffle d1 s1 = (s2, Ok d2) /\
        fst (split d2) = firstn ((4 * N) / 5) d2 /\
        snd (split d2) = skipn ((4 * N) / 5) d2 /\
        length (fst (split d2)) = ((4 * N) / 5)%nat /\
        length (snd (split d2)) = (N - (4 * N) / 5)%nat /\
        Permutation (fst (split d2) ++ snd (split d2)) data) /\
    (exists d1 s1,
        shuffle data s = (s1, Ok d1) /\
        fst (split d1) = firstn ((4 * N) / 5) d1 /\
        snd (split d1) = skipn ((4 * N) / 5) d1 /\
        length (fst (split d1)) = ((4 * N) / 5)%nat /\
        length (snd (split d1)) = (N - (4 * N) / 5)%nat /\
        Permutation (fst (split d1) ++ snd (split d1)) data).
Proof.
  intros data s N.
  destruct (shuffle_spec data s) as [d1 [t1 [E1 P1]]].
  destruct (shuffle_spec d1 (mkState t1 (trace s))) as [d2 [t2 [E2 P2]]].
  assert (L1 : length d1 = N) by (now apply Permutation_length).
  assert (L2 : length d2 = N) by (rewrite (Permutation_length P2); exact L1).
  split.
  - exists d1, (mkState t1 (trace s)), d2, (mkState t2 (trace s)).
    pose proof (split_spec d2) as H. unfold split in *. simpl in *.
    rewrite L2 in *. fold N. unfold partition_index in *.
    destruct H as [Ha [Hb Hc]].
    repeat split; try assumption.
    rewrite Hc. eapply perm_trans; eassumption.
  - exists d1, (mkState t1 (trace s)).
    pose proof (split_spec d1) as H. unfold split in *. simpl in *.
    rewrite L1 in *. unfold partition_index in *.
    destruct H as [Ha [Hb Hc]].
    repeat split; try assumption.
    now rewrite Hc.
Qed.


(** *** The scale is the maximum over train, and every charge is divided by it *)

Lemma mapM_total {A B} (f : A -> result B) (P : A -> B -> Prop) (l : list A) :
  Forall (fun x => exists y, f x = Ok y /\ P x y) l ->
  exists ys, mapM f l = Ok ys /\ Forall2 P l ys.
Proof.
  induction 1 as [|x t [y [Hy Py]] _ [ys [Hys Pys]]]; simpl.
  - exists []; split; [reflexivity | constructor].
  - exists (y :: ys). rewrite Hy, Hys. split; [reflexivity | now constructor].
Qed.

Lemma Forall2_In_l {A B} (P : A -> B -> Prop) l l' x :
  Forall2 P l l' -> In x l -> exists y, In y l' /\ P x y.
Proof.
  induction 1 as [|a b t t' Hab _ IH]; simpl; [contradiction|].
  intros [->|Hin]; [exists b; auto|].
  destruct (IH Hin) as [y [Hy Py]]. exists y; auto.
Qed.

Lemma Forall2_In_r {A B} (P : A -> B -> Prop) l l' y :
  Forall2 P l l' -> In y l' -> exists x, In x l /\ P x y.
Proof.
  induction 1 as [|a b t t' Hab _ IH]; simpl; [contradiction|].
  intros [->|Hin]; [exists a; auto|].
  destruct (IH Hin) as [x [Hx Px]]. exists x; auto.
Qed.

Lemma Forall2_map_r {A B} (P : A -> B -> Prop) (g : A -> B) (l : list A) :
  (forall x, P x (g x)) -> Forall2 P l (map g l).
Proof. intros H; induction l; simpl; constructor; auto. Qed.

Lemma fold_left_Rmax_spec (t : list R) (x : R) :
  (fold_left Rmax t x = x \/ In (fold_left Rmax t x) t) /\
  (x <= fold_left Rmax t x)%R /\
  Forall (fun y => (y <= fold_left Rmax t x)%R) t.
Proof.
  revert x; induction t as [|h t IH]; intros x; simpl.
  - split; [now left|]. split; [apply Rle_refl | constructor].
  - destruct (IH (Rmax x h)) as [Hin [Hle Hall]].
    split; [|split].
    + destruct Hin as [-> | Hin]; [|now right; right].
      unfold Rmax; destruct (Rle_dec x h); [right; now left | now left].
    + eapply Rle_trans; [apply Rmax_l | exact Hle].
    + constructor; [|exact Hall].
      eapply Rle_trans; [apply Rmax_r | exact Hle].
Qed.

(** [ndarray.max()] of a non-empty array is an element that bounds all. *)
Lemma np_max_spec (a : list R) :
  a <> [] ->
  exists m, np_max a = Ok m /\ In m a /\ forall c, In c a -> (c <= m)%R.
Proof.
  destruct a as [|x t]; [congruence|]. intros _.
  destruct (fold_left_Rmax_spec t x) as [Hin [Hle Hall]].
  exists (fold_left Rmax t x). split; [reflexivity|]. split.
  - simpl. destruct Hin as [-> | Hin]; auto.
  - intros c [<- | Hc]; [exact Hle|].
    rewrite Forall_forall in Hall. now apply Hall.
Qed.

Lemma max_charge_spec (train : list Labeled) :
  train <> [] -> Forall (fun e => fst e <> []) train ->
  exists mc,
    max_charge train = Ok mc /\
    (exists e p, In e train /\ In p (fst e) /\ pq p = mc) /\
    (forall e p, In e train -> In p (fst e) -> (pq p <= mc)%R).
Proof.
  intros Hne Hall.
  set (P := fun (e : Labeled) (m : R) =>
              In m (charges (fst e)) /\ forall c, In c (charges (fst e)) -> (c <= m)%R).
  destruct (mapM_total (fun x => np_max (charges (fst x))) P train) as [ms [Hms Pms]].
  { eapply Forall_impl; [|exact Hall]. intros e He.
    apply np_max_spec. unfold charges. intros Hc. apply map_eq_nil in Hc. contradiction. }
  assert (Hms_ne : ms <> []).
  { destruct train; [congruence|]. inversion Pms; discriminate. }
  destruct (np_max_spec ms Hms_ne) as [mc [Hmc [Hin Hle]]].
  exists mc. unfold max_charge. rewrite Hms. simpl. split; [exact Hmc|]. split.
  - destruct (Forall2_In_r _ _ _ _ Pms Hin) as [e [He [Hm _]]].
    unfold charges in Hm. apply in_map_iff in Hm. destruct Hm as [p [Hp Hpin]].
    exists e, p. auto.
  - intros e p He Hp.
    destruct (Forall2_In_l _ _ _ _ Pms He) as [m [Hm [_ Hb]]].
    eapply Rle_trans; [apply Hb; unfold charges; now apply in_map | now apply Hle].
Qed.

Lemma scale_event_scaled (mc : R) (e : Labeled) : scaled mc e (scale_event mc e).
Proof.
  unfold scaled, scale_event; simpl. split; [reflexivity|].
  apply Forall2_map_r. intros p; simpl. auto.
Qed.


Lemma normalize_scale_from_train_aux (train test : list Labeled) :
  train <> [] -> Forall (fun e => fst e <> []) train ->
  exists out, normalize train test = Ok out.
Proof.
  intros Hne Hall.
  destruct (max_charge_spec train Hne Hall) as [mc [Hmc _]].
  unfold normalize. rewrite Hmc. simpl. eauto.
Qed.

(** C2.  In a labeled run with a non-empty train partition of non-empty
    events, the normalisation returns a scale [mc] that is the maximum of the
    log-charges of the train points (it is one of them and bounds them all),
    the same scale whatever the test partition is; and afterwards every point
    of train and of test has its log-charge divided by [mc], everything else
    unchanged, so that a test point above the scale ends above 1. *)
Theorem normalize_scale_from_train :
  forall (train test : list Labeled),
    train <> [] -> Forall (fun e => fst e <> []) train ->
    exists mc train' test',
      normalize train test = Ok (mc, train', test') /\
      (exists e p, In e train /\ In p (fst e) /\ pq p = mc) /\
      (forall e p, In e train -> In p (fst e) -> (pq p <= mc)%R) /\
      (forall other, exists tr te, normalize train other = Ok (mc, tr, te)) /\
      Forall2 (scaled mc) train train' /\
      Forall2 (scaled mc) test test' /\
      ((0 < mc)%R ->
       Forall2 (fun e e' =>
                  Forall2 (fun p p' => (mc < pq p)%R -> (1 < pq p')%R) (fst e) (fst e'))
               test test').
Proof.
  intros train test Hne Hall.
  destruct (max_charge_spec train Hne Hall) as [mc [Hmc [Hin Hle]]].
  exists mc, (map (scale_event mc) train), (map (scale_event mc) test).
  unfold normalize. rewrite Hmc. simpl.
  split; [reflexivity|]. split; [exact Hin|]. split; [exact Hle|].
  split; [intros other; eauto|].
  split; [apply Forall2_map_r, scale_event_scaled|].
  split; [apply Forall2_map_r, scale_event_scaled|].
  intros Hpos. apply Forall2_map_r. intros e. unfold scale_event; simpl.
  apply Forall2_map_r. intros p Hp; simpl.
  apply (Rmult_lt_reg_r mc); [exact Hpos|].
  unfold Rdiv. rewrite Rmult_assoc, Rinv_l by lra. lra.
Qed.

Lemma normalize_scale_from_train_witness :
  [([mkPoint 0 0 0 1], 0%Z)] <> [] /\
  Forall (fun e : Labeled => fst e <> []) [([mkPoint 0 0 0 1], 0%Z)] /\
  exists mc train' test',
    normalize [([mkPoint 0 0 0 1], 0%Z)] [([mkPoint 0 0 0 2], 1%Z)]
    = Ok (mc, train', test') /\
    (exists e p, In e [([mkPoint 0 0 0 1], 0%Z)] /\ In p (fst e) /\ pq p = mc) /\
    (forall e p, In e [([mkPoint 0 0 0 1], 0%Z)] -> In p (fst e) -> (pq p <= mc)%R) /\
    (forall other, exists tr te,
        normalize [([mkPoint 0 0 0 1], 0%Z)] other = Ok (mc, tr, te)) /\
    Forall2 (scaled mc) [([mkPoint 0 0 0 1], 0%Z)] train' /\
    Forall2 (scaled mc) [([mkPoint 0 0 0 2], 1%Z)] test' /\
    ((0 < mc)%R ->
     Forall2 (fun e e' =>
                Forall2 (fun p p' => (mc < pq p)%R -> (1 < pq p')%R) (fst e) (fst e'))
             [([mkPoint 0 0 0 2], 1%Z)] test').
Proof.
  assert (H1 : [([mkPoint 0 0 0 1], 0%Z)] <> []) by discriminate.
  assert (H2 : Forall (fun e : Labeled => fst e <> []) [([mkPoint 0 0 0 1], 0%Z)]).
  { constructor; [simpl; discriminate | constructor]. }
  split; [exact H1|]. split; [exact H2|].
  exact (normalize_scale_from_train _ [([mkPoint 0 0 0 2], 1%Z)] H1 H2).
Defined.

(** A test point above every train point is not clamped: with train charge
    1 and test charge 2 after the log, the stored test charge is 2 / 1. *)
Lemma normalize_does_not_clamp :
  normalize [([mkPoint 0 0 0 1], 0%Z)] [([mkPoint 0 0 0 2], 1%Z)]
  = Ok (1%R, [([mkPoint 0 0 0 (1 / 1)], 0%Z)], [([mkPoint 0 0 0 (2 / 1)], 1%Z)])
  /\ (1 < 2 / 1)%R.
Proof. split; [reflexivity | lra]. Qed.


(** *** The charge transform *)

Local Open Scope R_scope.

Lemma ln_10_pos : 0 < ln 10.
Proof. rewrite <- ln_1. apply ln_increasing; lra. Qed.

Lemma _l_zero : _l 0 = Ok (PyInt 0).
Proof. unfold _l. destruct (Req_EM_T 0 0); [reflexivity | lra]. Qed.

Lemma _l_pos (a : R) : 0 < a -> _l a = Ok (PyFloat (log10 a)).
Proof.
  intros Ha. unfold _l.
  destruct (Req_EM_T a 0); [lra|]. destruct (Rlt_dec 0 a); [reflexivity | lra].
Qed.

Lemma _l_neg (a : R) : a < 0 -> _l a = Raise (ValueError "math domain error").
Proof.
  intros Ha. unfold _l.
  destruct (Req_EM_T a 0); [lra|]. destruct (Rlt_dec 0 a); [lra | reflexivity].
Qed.

Lemma log10_monotone (a b : R) : 0 < a -> a <= b -> log10 a <= log10 b.
Proof.
  intros Ha [Hlt | ->]; [|apply Rle_refl].
  unfold log10, Rdiv. apply Rmult_le_compat_r.
  - left. apply Rinv_0_lt_compat, ln_10_pos.
  - left. now apply ln_increasing.
Qed.

(** The scalar function is the transform of the specification: on every
    charge [a >= 0] it returns a number of that value, and it is monotone
    on the positive charges. *)
Lemma _l_transform :
  (forall a, 0 <= a -> exists v, _l a = Ok v /\ num_val v = spec_transform a) /\
  (forall a b, 0 < a -> a <= b ->
     exists va vb, _l a = Ok va /\ _l b = Ok vb /\ num_val va <= num_val vb).
Proof.
  split.
  - intros a [Ha | <-].
    + exists (PyFloat (log10 a)). split; [now apply _l_pos|].
      unfold spec_transform. destruct (Req_EM_T a 0); [lra | reflexivity].
    + exists (PyInt 0). split; [apply _l_zero|].
      unfold spec_transform. destruct (Req_EM_T 0 0); [reflexivity | lra].
  - intros a b Ha Hab. exists (PyFloat (log10 a)), (PyFloat (log10 b)).
    rewrite !_l_pos by lra. repeat split. now apply log10_monotone.
Qed.

(** On a column of positive charges the vectorised function is the
    element-wise [log10]. *)
Lemma np_vectorize_positive (xs : list R) :
  xs <> [] -> Forall (fun a => 0 < a) xs ->
  np_vectorize _l xs = Ok (map log10 xs).
Proof.
  destruct xs as [|x0 t]; [congruence|]. intros _ Hall.
  unfold np_vectorize. rewrite _l_pos by (now inversion Hall).
  cbv beta iota delta [rbind].
  rewrite (mapM_ok_map _l (fun a => PyFloat (log10 a))).
  - simpl. now rewrite map_map.
  - intros a Ha. apply _l_pos. rewrite Forall_forall in Hall. now apply Hall.
Qed.

Lemma log10_2_bounds : 0 < log10 2 < 1.
Proof.
  pose proof ln_10_pos as H10. unfold log10. split.
  - apply Rdiv_lt_0_compat; [|exact H10].
    rewrite <- ln_1. apply ln_increasing; lra.
  - apply (Rmult_lt_reg_r (ln 10)); [exact H10|].
    unfold Rdiv. rewrite Rmult_assoc, Rinv_l by lra.
    rewrite Rmult_1_r, Rmult_1_l. apply ln_increasing; lra.
Qed.

Lemma Rtrunc_log10_2 : Rtrunc (log10 2) = 0%Z.
Proof.
  pose proof log10_2_bounds as [H0 H1]. unfold Rtrunc.
  destruct (Rle_dec 0 (log10 2)); [|lra].
  symmetry. apply Int_part_spec. simpl. lra.
Qed.

(** C4, at the failing input.  An event of two points with charges 0.0 and
    2.0: the scalar transform gives 0 and [log10 2], which is not 0, but the
    charge column that the log stage stores is 0.0 and 0.0, because the
    vectorised function took the integer dtype from its first output. *)
Theorem log_stage_truncates_after_zero_charge :
  _l 0 = Ok (PyInt 0) /\
  _l 2 = Ok (PyFloat (log10 2)) /\
  log10 2 <> 0 /\
  log_event ([mkPoint 0 0 0 0; mkPoint 0 0 0 2], 0%Z)
  = Ok ([mkPoint 0 0 0 0; mkPoint 0 0 0 0], 0%Z).
Proof.
  pose proof log10_2_bounds as [H0 _].
  split; [apply _l_zero|]. split; [apply _l_pos; lra|]. split; [lra|].
  unfold log_event, np_vectorize; simpl.
  rewrite _l_zero. rewrite _l_pos by lra. simpl.
  now rewrite Rtrunc_log10_2.
Qed.

End GeneratorFacts.

(** ** Facts about whole runs of the generator *)

Section RunFacts.

Import GenerateImages.

Variable Image : Type.
Variable rasterize : Scatter -> Image.
Variable add_noise : Event -> Event.

Lemma scatter_call_unmatched keys projection e :
  unmatched keys projection ->
  scatter_call (fst keys) (snd keys) projection e = Raise invalid_msg.
Proof.
  intros [H1 H2]. unfold scatter_call, select_columns. now rewrite H1, H2.
Qed.

Lemma render_all_unmatched keys projection e t s :
  unmatched keys projection ->
  render_all Image rasterize keys projection (e :: t) s = (s, Raise invalid_msg).
Proof.
  intros H. unfold render_all, bind; simpl.
  unfold bind, render_event, bind, lift.
  now rewrite (scatter_call_unmatched keys projection (fst e) H).
Qed.

Lemma normalize_ok_train (train test : list Labeled) mc tr te :
  normalize train test = Ok (mc, tr, te) ->
  exists e t, tr = e :: t.
Proof.
  unfold normalize, max_charge. destruct train as [|e t]; simpl; [discriminate|].
  destruct (np_max (charges (fst e))); simpl; [|discriminate].
  match goal with |- context [mapM ?f t] => destruct (mapM f t) end;
    simpl; [|discriminate].
  intros H. inversion H; subst. eauto.
Qed.

(** With a projection that matches neither constant, the closing stages
    start the split and the normalisation and then raise: the error of the
    normalisation if it fails, the projection error at the first train event
    otherwise. *)
Lemma finish_labeled_unmatched (disk : Disk) (save_path prefix : string)
  keys projection data s :
  unmatched keys projection ->
  finish_labeled Image rasterize disk save_path prefix keys projection data s
  = (mkState (tape s) (trace s ++ [StSplit; StNormalize]),
     Raise (match normalize (fst (split data)) (snd (split data)) with
            | Raise e => e
            | Ok _ => invalid_msg
            end)).
Proof.
  intros H. unfold finish_labeled.
  destruct (split data) as [train test] eqn:Hs. simpl fst; simpl snd.
  unfold bind at 1. unfold tell at 1. unfold bind at 1. unfold tell at 1.
  simpl trace; simpl tape. rewrite <- app_assoc. simpl app.
  unfold bind at 1. unfold lift at 1.
  destruct (normalize train test) as [[[mc tr] te]|e] eqn:Hn; [|reflexivity].
  destruct (normalize_ok_train _ _ _ _ _ Hn) as [e [t ->]].
  unfold bind at 1. now rewrite render_all_unmatched.
Qed.


Lemma mapM_Forall2 {A B} (f : A -> result B) (l : list A) (r : list B) :
  mapM f l = Ok r -> Forall2 (fun x y => f x = Ok y) l r.
Proof.
  revert r; induction l as [|x t IH]; simpl; intros r H.
  - inversion H; constructor.
  - destruct (f x) as [y|e] eqn:Hx; simpl in H; [|discriminate].
    destruct (mapM f t) as [ys|e]; simpl in H; [|discriminate].
    inversion H; subst. constructor; auto.
Qed.

Lemma log_event_ok (e e' : Labeled) :
  log_event e = Ok e' -> fst e <> [] /\ length (fst e') = length (fst e).
Proof.
  unfold log_event. destruct e as [xyzs label]; simpl.
  destruct xyzs as [|p t]; [discriminate|].
  destruct (np_vectorize _l (charges (p :: t))) as [cs|err] eqn:Hv; simpl;
    [|discriminate].
  intros H; inversion H; subst; simpl. split; [discriminate|].
  unfold np_vectorize in Hv. simpl in Hv.
  destruct (_l (pq p)) as [v|err]; simpl in Hv; [|discriminate].
  destruct (mapM _l (charges t)) as [vs|err] eqn:Hm; simpl in Hv; [|discriminate].
  inversion Hv; subst. apply mapM_length in Hm. unfold charges in Hm.
  rewrite length_map in Hm.
  unfold set_charges. simpl. rewrite length_map, length_combine, length_map, Hm.
  now rewrite Nat.min_id.
Qed.

Lemma log_stage_ok (data d : list Labeled) :
  log_stage data = Ok d ->
  length d = length data /\ Forall (fun e => fst e <> []) data /\
  Forall (fun e => fst e <> []) d.
Proof.
  intros H. pose proof (mapM_length _ _ _ H) as Hl. split; [exact Hl|].
  apply mapM_Forall2 in H. clear Hl.
  induction H as [|e e' t t' He _ [IH1 IH2]]; [split; constructor|].
  destruct (log_event_ok _ _ He) as [Hne Hlen].
  split; constructor; auto.
  destruct e' as [xs' l']; simpl in *. intros ->.
  destruct (fst e); [congruence | discriminate].
Qed.

Lemma log_stage_empty_event (data : list Labeled) :
  Exists (fun e => fst e = []) data -> exists err, log_stage data = Raise err.
Proof.
  intros H. destruct (log_stage data) as [d|err] eqn:Hd; [|eauto].
  destruct (log_stage_ok _ _ Hd) as [_ [Hall _]].
  rewrite Exists_exists in H. destruct H as [e [Hin He]].
  rewrite Forall_forall in Hall. now destruct (Hall e Hin).
Qed.

(** The scale of a partition that starts at index 0 of at least two shuffled
    events, all non-empty, is defined. *)
Lemma normalize_split_ok (d : list Labeled) :
  (2 <= length d)%nat -> Forall (fun e => fst e <> []) d ->
  exists out, normalize (fst (split d)) (snd (split d)) = Ok out.
Proof.
  intros Hlen Hall. unfold split; simpl.
  set (k := partition_index (length d)).
  assert (Hk : (1 <= k)%nat).
  { unfold k, partition_index. apply Nat.div_str_pos. lia. }
  assert (Hne : firstn k d <> []).
  { intros Hnil. apply (f_equal (@length _)) in Hnil.
    pose proof (partition_index_le (length d)).
    rewrite length_firstn in Hnil. simpl in Hnil. fold k in H. lia. }
  assert (Hf : Forall (fun e => fst e <> []) (firstn k d)).
  { rewrite <- (firstn_skipn k d) in Hall. now apply Forall_app in Hall. }
  destruct (normalize_scale_from_train_aux (firstn k d) (skipn k d) Hne Hf) as [out H].
  eauto.
Qed.


(** A failure of the log stage ends each mode with only that stage begun. *)
Lemma stages_log_raise (disk : Disk) (save_path prefix : string)
  projection data s err :
  log_stage data = Raise err ->
  real_labeled_stages Image rasterize disk save_path prefix projection data s
  = (mkState (tape s) (trace s ++ [StLog]), Raise err) /\
  real_unlabeled_stages Image rasterize disk save_path prefix projection data s
  = (mkState (tape s) (trace s ++ [StLog]), Raise err) /\
  simulated_stages Image rasterize disk save_path prefix projection data s
  = (mkState (tape s) (trace s ++ [StLog]), Raise err).
Proof.
  intros H.
  unfold real_labeled_stages, real_unlabeled_stages, simulated_stages,
    bind, tell, lift.
  rewrite H. auto.
Qed.

Lemma simulated_stages_unmatched (disk : Disk) (save_path prefix : string)
  projection data s :
  unmatched sim_keys projection ->
  exists s' err,
    simulated_stages Image rasterize disk save_path prefix projection data s = (s', Raise err) /\
    (forall e, log_stage data = Raise e -> trace s' = trace s ++ [StLog] /\ err = e) /\
    (forall d, log_stage data = Ok d ->
       trace s' = trace s ++ [StLog; StShuffle; StSplit; StNormalize] /\
       ((2 <= length data)%nat -> err = invalid_msg)).
Proof.
  intros Hu. destruct (log_stage data) as [d|e] eqn:Hlog.
  - unfold simulated_stages, bind, tell, lift. rewrite Hlog. simpl.
    match goal with |- context [shuffle d ?st] =>
      destruct (shuffle_spec d st) as [d1 [t1 [E1 P1]]]; rewrite E1 end.
    rewrite (finish_labeled_unmatched disk save_path prefix sim_keys projection d1 _ Hu).
    eexists _, _. split; [reflexivity|]. split; [intros e; discriminate|].
    intros d' Hd'. inversion Hd'; subst d'. cbn [trace tape].
    split; [now rewrite <- !app_assoc|].
    intros Hlen. destruct (log_stage_ok _ _ Hlog) as [Hl [_ Hall]].
    destruct (normalize_split_ok d1) as [out Hout].
    + rewrite (Permutation_length P1). lia.
    + eapply Permutation_Forall; [apply Permutation_sym, P1 | exact Hall].
    + now rewrite Hout.
  - destruct (stages_log_raise disk save_path prefix projection data s e Hlog) as [_ [_ E]].
    eexists _, _. split; [exact E|]. simpl. split.
    + intros e' He'. inversion He'; auto.
    + intros d; discriminate.
Qed.

Lemma real_labeled_stages_unmatched (disk : Disk) (save_path prefix : string)
  projection data s :
  unmatched real_keys projection ->
  exists s' err,
    real_labeled_stages Image rasterize disk save_path prefix projection data s = (s', Raise err) /\
    (forall e, log_stage data = Raise e -> trace s' = trace s ++ [StLog] /\ err = e) /\
    (forall d, log_stage data = Ok d ->
       trace s' = trace s ++ [StLog; StShuffle; StSplit; StNormalize] /\
       ((2 <= length data)%nat -> err = invalid_msg)).
Proof.
  intros Hu. destruct (log_stage data) as [d|e] eqn:Hlog.
  - unfold real_labeled_stages, bind, tell, lift. rewrite Hlog. simpl.
    match goal with |- context [shuffle d ?st] =>
      destruct (shuffle_spec d st) as [d1 [t1 [E1 P1]]]; rewrite E1 end.
    match goal with |- context [shuffle d1 ?st] =>
      destruct (shuffle_spec d1 st) as [d2 [t2 [E2 P2]]]; rewrite E2 end.
    rewrite (finish_labeled_unmatched disk save_path prefix real_keys projection d2 _ Hu).
    eexists _, _. split; [reflexivity|]. split; [intros e; discriminate|].
    intros d' Hd'. inversion Hd'; subst d'. cbn [trace tape].
    split; [now rewrite <- !app_assoc|].
    intros Hlen. destruct (log_stage_ok _ _ Hlog) as [Hl [_ Hall]].
    destruct (normalize_split_ok d2) as [out Hout].
    + rewrite (Permutation_length P2), (Permutation_length P1). lia.
    + eapply Permutation_Forall; [apply Permutation_sym, P2|].
      eapply Permutation_Forall; [apply Permutation_sym, P1 | exact Hall].
    + now rewrite Hout.
  - destruct (stages_log_raise disk save_path prefix projection data s e Hlog) as [E _].
    eexists _, _. split; [exact E|]. simpl. split.
    + intros e' He'. inversion He'; auto.
    + intros d; discriminate.
Qed.


Lemma bind_lift_ok {A B} (a : A) (k : A -> M B) (s : State) :
  bind (lift (Ok a)) k s = k a s.
Proof. reflexivity. Qed.

Lemma bind_lift_raise {A B} (e : exn) (k : A -> M B) (s : State) :
  bind (lift (Raise e)) k s = (s, Raise e).
Proof. reflexivity. Qed.

Lemma not_rendered_1 (a : Step) : a <> StRender -> ~ In StRender [a].
Proof. intros H [E|[]]; congruence. Qed.

Lemma max_charge_empty_event (coll : list Labeled) :
  Exists (fun e => fst e = []) coll -> max_charge coll = Raise zero_size_msg.
Proof.
  intros H. unfold max_charge.
  destruct (mapM (fun x => np_max (charges (fst x))) coll) as [ms|err] eqn:Hm.
  - assert (Hf : is_ok (mapM (fun x => np_max (charges (fst x))) coll) = false).
    { apply mapM_exists_raise. eapply Exists_impl; [|exact H].
      intros [xs l] He; simpl in *. now subst xs. }
    rewrite Hm in Hf. discriminate.
  - simpl. apply mapM_raise_in in Hm. destruct Hm as [e [_ He]].
    unfold np_max in He. destruct (charges (fst e)); [congruence | discriminate].
Qed.

(** C10.  A collection with a zero-point event has no scale: the per-event
    maximum is undefined and the normalisation raises; each of the three
    modes, run on data that holds such an event, raises without any event
    rendered; whereas the selection of the renderer accepts a zero-point
    event and passes three empty columns to the backend. *)
Theorem zero_point_event_fails_before_rendering :
  forall (disk : Disk) (save_path prefix : string)
         (projection : pyval) (coll : list Labeled) (draws : list nat),
    Exists (fun e => fst e = []) coll ->
    np_max (charges []) = Raise zero_size_msg /\
    max_charge coll = Raise zero_size_msg /\
    (forall other, normalize coll other = Raise zero_size_msg) /\
    (exists s err,
        run (real_labeled_stages Image rasterize disk save_path prefix projection coll) draws = (s, Raise err)
        /\ ~ In StRender (trace s)) /\
    (exists s err,
        run (real_unlabeled_stages Image rasterize disk save_path prefix projection coll) draws = (s, Raise err)
        /\ ~ In StRender (trace s)) /\
    (exists s err,
        run (simulated_stages Image rasterize disk save_path prefix projection coll) draws = (s, Raise err)
        /\ ~ In StRender (trace s)) /\
    scatter_call (fst real_keys) (snd real_keys) (PStr "xy") []
    = Ok (mkScatter [] [] [] (Some (-275, 275)%R) (-275, 275)%R) /\
    scatter_call (fst real_keys) (snd real_keys) (PStr "zy") []
    = Ok (mkScatter [] [] [] (Some (0, 1250)%R) (-275, 275)%R).
Proof.
  intros disk save_path prefix projection coll draws H.
  pose proof (max_charge_empty_event coll H) as Hmc.
  destruct (log_stage_empty_event coll H) as [err Hlog].
  destruct (stages_log_raise disk save_path prefix projection coll
              (mkState draws []) err Hlog)
    as [E1 [E2 E3]].
  split; [reflexivity|]. split; [exact Hmc|].
  split; [intros other; unfold normalize; now rewrite Hmc|].
  unfold run. rewrite E1, E2, E3. simpl.
  repeat (split; [eexists _, _; split;
                  [reflexivity | apply not_rendered_1; discriminate]|]).
  split; reflexivity.
Qed.

(** C9.  A run whose projection argument is neither ['xy'] nor ['zy'] ends
    in a usage error raised while the command line is parsed: no stage has
    begun and no random draw is consumed. *)
Theorem invalid_projection_rejected_before_any_stage :
  forall (args : Args) (files : Files) (draws : list nat),
    arg_projection args <> "xy" -> arg_projection args <> "zy" ->
    exists msg,
      run (main Image rasterize add_noise args files) draws
      = (mkState draws [], Raise (UsageError msg)).
Proof.
  intros args files draws Hxy Hzy. unfold run, main, bind, lift.
  destruct (click_choice ["real"; "sim"] (arg_type args)) as [type|err] eqn:Ht.
  - unfold click_choice. simpl existsb.
    apply String.eqb_neq in Hxy, Hzy. rewrite Hxy, Hzy. simpl. eauto.
  - unfold click_choice in Ht.
    destruct (existsb _ _) in Ht; [discriminate|]. inversion Ht. eauto.
Qed.

(** X27.  Called directly with such a projection, [real_labeled] raises only
    after the log stage has begun, and on data of two or more events that
    pass the log stage, only after shuffle, split and normalisation. *)
Lemma invalid_projection_direct_call (disk : Disk) (save_path prefix : string)
  (projection : string) data draws :
  projection <> "xy" -> projection <> "zy" ->
  exists s err,
    run (real_labeled_stages Image rasterize disk save_path prefix (PStr projection) data) draws
    = (s, Raise err) /\
    In StLog (trace s) /\
    (forall d, log_stage data = Ok d -> (2 <= length data)%nat ->
       trace s = [StLog; StShuffle; StSplit; StNormalize] /\ err = invalid_msg).
Proof.
  intros Hxy Hzy. apply String.eqb_neq in Hxy, Hzy.
  destruct (real_labeled_stages_unmatched disk save_path prefix
              (PStr projection) data (mkState draws []))
    as [s [err [E [Hr Ho]]]]; [split; simpl; assumption|].
  exists s, err. split; [exact E|]. split.
  - destruct (log_stage data) as [d|e] eqn:Hlog.
    + destruct (Ho d eq_refl) as [-> _]. simpl; auto.
    + destruct (Hr e eq_refl) as [-> _]. simpl; auto.
  - intros d Hd Hlen. destruct (Ho d Hd) as [Ht He]. split; [exact Ht | auto].
Qed.


(** C1.  In [real_labeled] and [real_unlabeled], ['zy'] selects (z, y) with
    the horizontal range [0, 1250] and ['xy'] selects (x, y) with the
    horizontal range [-275, 275], the vertical range being [-275, 275] in
    both.  In [simulated] the chain compares the selector with the integers
    1 and 0: for every string, ['zy'] and ['xy'] included, the selection
    raises, and no run of the script in mode [sim] renders an event or
    returns a dataset. *)
Theorem simulated_rejects_string_selectors :
  (forall e,
      scatter_call (fst real_keys) (snd real_keys) (PStr "zy") e
      = Ok (mkScatter (map pz e) (map py e) (map pq e)
                      (Some (0, 1250)%R) (-275, 275)%R)) /\
  (forall e,
      scatter_call (fst real_keys) (snd real_keys) (PStr "xy") e
      = Ok (mkScatter (map px e) (map py e) (map pq e)
                      (Some (-275, 275)%R) (-275, 275)%R)) /\
  (forall selector e,
      scatter_call (fst sim_keys) (snd sim_keys) (PStr selector) e
      = Raise invalid_msg) /\
  (forall selector labeled noise num_events save_path prefix files draws,
      exists s err,
        run (main Image rasterize add_noise
                  (mkArgs "sim" selector labeled noise num_events save_path prefix)
                  files) draws
        = (s, Raise err) /\ ~ In StRender (trace s)).
Proof.
  split; [reflexivity|]. split; [reflexivity|]. split; [reflexivity|].
  intros selector labeled noise num_events save_path prefix files draws.
  unfold run, main.
  cbn [arg_type arg_projection arg_noise arg_num_events arg_save_path arg_prefix].
  assert (Ht : click_choice ["real"; "sim"] "sim" = Ok "sim") by reflexivity.
  rewrite Ht, bind_lift_ok.
  destruct (click_choice ["xy"; "zy"] selector) as [projection|err] eqn:Hp.
  2: { rewrite bind_lift_raise. eexists _, _. split; [reflexivity|]. simpl; auto. }
  rewrite bind_lift_ok.
  assert (Hproj : projection = selector).
  { unfold click_choice in Hp. destruct (existsb _ _) in Hp; congruence. }
  subst projection.
  replace (String.eqb "sim" "real") with false by reflexivity.
  unfold simulated.
  unfold bind at 1. unfold bind at 1. unfold tell at 1. cbn [trace tape app].
  unfold bind at 1. unfold lift at 1.
  destruct (ingest_simulated add_noise noise num_events files) as [data|err].
  - destruct (simulated_stages_unmatched (fs_disk files) save_path prefix
                (PStr selector) data
                (mkState draws [StIngest])) as [s [err [E [Hr Ho]]]];
      [split; reflexivity|].
    rewrite E. exists s, err. split; [reflexivity|].
    destruct (log_stage data) as [d|e].
    + destruct (Ho d eq_refl) as [-> _]. simpl.
      intros H; repeat destruct H as [H|H]; discriminate || contradiction.
    + destruct (Hr e eq_refl) as [-> _]. simpl.
      intros H; repeat destruct H as [H|H]; discriminate || contradiction.
  - eexists _, _. split; [reflexivity|]. apply not_rendered_1; discriminate.
Qed.

(** *** The junk events of [simulated] *)

Lemma junk_events_spec noise num_events heap :
  length (junk_events add_noise noise num_events heap) = Z.to_nat num_events /\
  Forall (fun ev => snd ev = 2%Z) (junk_events add_noise noise num_events heap) /\
  (forall i, (i < Z.to_nat num_events)%nat ->
     nth_error (junk_events add_noise noise num_events heap) i
     = Some (with_noise add_noise noise (np_empty_1x4 (heap i)), 2%Z)).
Proof.
  unfold junk_events. split; [now rewrite length_map, length_seq|]. split.
  - apply Forall_map. apply Forall_forall. reflexivity.
  - intros i Hi. rewrite nth_error_map.
    rewrite nth_error_seq. destruct (Nat.ltb_spec i (Z.to_nat num_events)); [|lia].
    reflexivity.
Qed.

(** X28.  When both event files open and [num_events >= 0], the data of
    [simulated] is the proton events labeled 0, the carbon events labeled 1
    and then exactly [num_events] junk events, each labeled 2 and each built
    from a fresh array of one row, passed through the noise collaborator
    when noise is on and of exactly one point when it is off; for
    [num_events = 0] the data holds the proton and the carbon events and
    nothing else. *)
Theorem junk_events_count_and_labels :
  forall (noise : bool) (num_events : Z) (files : Files)
         (protons carbons : list Event),
    (0 <= num_events)%Z ->
    fs_proton files = Some protons -> fs_carbon files = Some carbons ->
    exists junk,
      ingest_simulated add_noise noise num_events files
      = Ok (map (fun xyzs => (with_noise add_noise noise xyzs, 0%Z)) protons
            ++ map (fun xyzs => (with_noise add_noise noise xyzs, 1%Z)) carbons
            ++ junk) /\
      Z.of_nat (length junk) = num_events /\
      Forall (fun ev => snd ev = 2%Z) junk /\
      (forall i, (i < length junk)%nat ->
         nth_error junk i
         = Some (with_noise add_noise noise (np_empty_1x4 (fs_heap files i)), 2%Z)) /\
      (noise = false -> Forall (fun ev => length (fst ev) = 1%nat) junk) /\
      (num_events = 0%Z ->
       junk = [] /\
       length (map (fun xyzs => (with_noise add_noise noise xyzs, 0%Z)) protons
               ++ map (fun xyzs => (with_noise add_noise noise xyzs, 1%Z)) carbons
               ++ junk)
       = (length protons + length carbons)%nat).
Proof.
  intros noise num_events files protons carbons Hn Hp Hc.
  destruct (junk_events_spec noise num_events (fs_heap files)) as [Hlen [Hlab Hnth]].
  exists (junk_events add_noise noise num_events (fs_heap files)).
  split; [unfold ingest_simulated; now rewrite Hp, Hc|].
  split; [transitivity (Z.of_nat (Z.to_nat num_events));
          [f_equal; exact Hlen | lia]|].
  split; [exact Hlab|].
  split; [intros i Hi; apply Hnth; change (i < Z.to_nat num_events)%nat;
          now rewrite <- Hlen|].
  split.
  - intros ->. unfold junk_events. apply Forall_map, Forall_forall. reflexivity.
  - intros ->. split; [reflexivity|].
    simpl. rewrite app_nil_r, length_app, !length_map. reflexivity.
Qed.

End RunFacts.

(** ** Concrete runs *)

Section Examples.

Import GenerateImages.
Local Open Scope R_scope.

Lemma zero_point_event_fails_before_rendering_witness :
  Exists (fun e : Labeled => fst e = []) [([], 0%Z)] /\
  np_max (charges []) = Raise zero_size_msg /\
  max_charge [([], 0%Z)] = Raise zero_size_msg /\
  (forall other, normalize [([], 0%Z)] other = Raise zero_size_msg) /\
  (exists s err,
      run (real_labeled_stages unit (fun _ => tt) open_disk "out" "run_" (PStr "xy") [([], 0%Z)]) []
      = (s, Raise err) /\ ~ In StRender (trace s)) /\
  (exists s err,
      run (real_unlabeled_stages unit (fun _ => tt) open_disk "out" "run_" (PStr "xy") [([], 0%Z)]) []
      = (s, Raise err) /\ ~ In StRender (trace s)) /\
  (exists s err,
      run (simulated_stages unit (fun _ => tt) open_disk "out" "run_" (PStr "xy") [([], 0%Z)]) []
      = (s, Raise err) /\ ~ In StRender (trace s)) /\
  scatter_call (fst real_keys) (snd real_keys) (PStr "xy") []
  = Ok (mkScatter [] [] [] (Some (-275, 275)) (-275, 275)) /\
  scatter_call (fst real_keys) (snd real_keys) (PStr "zy") []
  = Ok (mkScatter [] [] [] (Some (0, 1250)) (-275, 275)).
Proof.
  assert (H : Exists (fun e : Labeled => fst e = []) [([], 0%Z)]).
  { constructor. reflexivity. }
  split; [exact H|].
  exact (zero_point_event_fails_before_rendering
           unit (fun _ => tt) open_disk "out" "run_" (PStr "xy") [([], 0%Z)] [] H).
Defined.

Lemma invalid_projection_rejected_before_any_stage_witness :
  "ab" <> "xy" /\ "ab" <> "zy" /\
  exists msg,
    run (main unit (fun _ => tt) (fun e => e)
              (mkArgs "real" "ab" true true 0 "out" "run_") no_files) [3%nat; 1%nat]
    = (mkState [3%nat; 1%nat] [], Raise (UsageError msg)).
Proof.
  assert (H1 : "ab" <> "xy") by discriminate.
  assert (H2 : "ab" <> "zy") by discriminate.
  split; [exact H1|]. split; [exact H2|].
  exact (invalid_projection_rejected_before_any_stage
           unit (fun _ => tt) (fun e => e)
           (mkArgs "real" "ab" true true 0 "out" "run_") no_files [3%nat; 1%nat] H1 H2).
Defined.

(** C5, at the failing input.  With noise off and one junk event requested,
    where the block that [np.empty([1, 4])] returns holds four ones, the
    event appended is that row: a single point labeled 2 whose coordinates
    and charge are not zero.  The code allocates the placeholder without
    zeroing it. *)
Lemma junk_event_not_zeroed :
  junk_events (fun e => e) false 1 (fun _ => mkPoint 1 1 1 1)
  = [([mkPoint 1 1 1 1], 2%Z)] /\
  ~ Forall (fun ev : Labeled => all_zero (fst ev))
           (junk_events (fun e => e) false 1 (fun _ => mkPoint 1 1 1 1)).
Proof.
  split; [reflexivity|].
  intros H. inversion H as [|ev t Hz _]; subst.
  unfold all_zero in Hz; simpl in Hz.
  inversion Hz as [|p t' [Hx _] _]; subst. simpl in Hx. lra.
Qed.

Lemma junk_events_count_and_labels_witness :
  (0 <= 2)%Z /\
  fs_proton two_protons = Some [[mkPoint 1 2 3 10]; [mkPoint 4 5 6 100]] /\
  fs_carbon two_protons = Some [] /\
  exists junk,
    ingest_simulated (fun e => e) false 2 two_protons
    = Ok (map (fun xyzs => (with_noise (fun e => e) false xyzs, 0%Z))
              [[mkPoint 1 2 3 10]; [mkPoint 4 5 6 100]]
          ++ map (fun xyzs => (with_noise (fun e => e) false xyzs, 1%Z)) []
          ++ junk) /\
    Z.of_nat (length junk) = 2%Z /\
    Forall (fun ev => snd ev = 2%Z) junk.
Proof.
  assert (H0 : (0 <= 2)%Z) by lia.
  split; [exact H0|]. split; [reflexivity|]. split; [reflexivity|].
  destruct (junk_events_count_and_labels (fun e => e) false 2 two_protons
              [[mkPoint 1 2 3 10]; [mkPoint 4 5 6 100]] [] H0 eq_refl eq_refl)
    as [junk [E [Hl [Hlab _]]]].
  exists junk. auto.
Defined.


Lemma set_charges_map (f : R -> R) (e : Event) :
  set_charges e (map f (charges e)) = map (fun p => set_pq p (f (pq p))) e.
Proof.
  unfold set_charges, charges. induction e as [|p t IH]; simpl; [reflexivity|].
  now rewrite IH.
Qed.

(** On an event of positive charges the log stage stores [log10] of each. *)
Lemma log_event_positive (e : Event) (label : Z) :
  e <> [] -> Forall (fun p => 0 < pq p) e ->
  log_event (e, label) = Ok (map (fun p => set_pq p (log10 (pq p))) e, label).
Proof.
  intros Hne Hall. unfold log_event; simpl.
  rewrite np_vectorize_positive.
  - simpl. now rewrite set_charges_map.
  - unfold charges. intros H. apply map_eq_nil in H. contradiction.
  - unfold charges. now apply Forall_map.
Qed.

Lemma log_two_events :
  log_stage [([mkPoint 1 2 3 10], 0%Z); ([mkPoint 4 5 6 100], 1%Z)]
  = Ok [([mkPoint 1 2 3 (log10 10)], 0%Z); ([mkPoint 4 5 6 (log10 100)], 1%Z)]
  /\
  log_stage [([mkPoint 1 2 3 10], 0%Z); ([mkPoint 4 5 6 100], 0%Z)]
  = Ok [([mkPoint 1 2 3 (log10 10)], 0%Z); ([mkPoint 4 5 6 (log10 100)], 0%Z)].
Proof.
  unfold log_stage; simpl.
  rewrite !log_event_positive
    by first [discriminate | repeat constructor; simpl; lra].
  split; reflexivity.
Qed.

(** A real labeled run with projection ['zy'] on two events: every stage is
    performed, train holds the first event of the shuffled order and test
    the second, and the backend is asked for (z, y) over [0, 1250] by
    [-275, 275] with the normalised log-charges as colours. *)
Example real_labeled_zy_run :
  run (main Scatter (fun call => call) (fun e => e)
            (mkArgs "real" "zy" true true 0 "out" "run_") two_labeled) []
  = (mkState [] [StIngest; StLog; StShuffle; StSplit; StNormalize;
                 StRender; StRender; StSave],
     Ok (OutLabeled Scatter
           (mkLabeledSet Scatter
              [mkScatter [3] [2] [log10 10 / log10 10] (Some (0, 1250)) (-275, 275)]
              [0%Z]
              [mkScatter [6] [5] [log10 100 / log10 10] (Some (0, 1250)) (-275, 275)]
              [1%Z]
              (log10 10)))).
Proof.
  destruct log_two_events as [Hlog _].
  unfold run, main.
  cbn [arg_type arg_projection arg_labeled arg_save_path arg_prefix].
  assert (Ht : click_choice ["real"; "sim"] "real" = Ok "real") by reflexivity.
  assert (Hp : click_choice ["xy"; "zy"] "zy" = Ok "zy") by reflexivity.
  rewrite Ht, bind_lift_ok, Hp, bind_lift_ok.
  replace (String.eqb "real" "real") with true by reflexivity.
  unfold real_labeled, real_labeled_stages.
  assert (Hi : ingest_labeled two_labeled
               = Ok [([mkPoint 1 2 3 10], 0%Z); ([mkPoint 4 5 6 100], 1%Z)])
    by reflexivity.
  unfold bind, tell, lift. rewrite Hi. cbn [trace tape app]. rewrite Hlog.
  reflexivity.
Qed.

(** C1, at the failing input: the same selector ['zy'] in mode [sim], on two
    proton events.  The run goes through ingestion, log, shuffle, split and
    normalisation and raises [ValueError('Invalid projection value.')] at the
    first train event. *)
Example simulated_zy_run :
  run (main Scatter (fun call => call) (fun e => e)
            (mkArgs "sim" "zy" true false 0 "out" "run_") two_protons) []
  = (mkState [] [StIngest; StLog; StShuffle; StSplit; StNormalize],
     Raise invalid_msg).
Proof.
  destruct log_two_events as [_ Hlog].
  unfold run, main.
  cbn [arg_type arg_projection arg_noise arg_num_events arg_save_path arg_prefix].
  assert (Ht : click_choice ["real"; "sim"] "sim" = Ok "sim") by reflexivity.
  assert (Hp : click_choice ["xy"; "zy"] "zy" = Ok "zy") by reflexivity.
  rewrite Ht, bind_lift_ok, Hp, bind_lift_ok.
  replace (String.eqb "sim" "real") with false by reflexivity.
  unfold simulated, simulated_stages.
  assert (Hi : ingest_simulated (fun e => e) false 0 two_protons
               = Ok [([mkPoint 1 2 3 10], 0%Z); ([mkPoint 4 5 6 100], 0%Z)])
    by reflexivity.
  unfold bind, tell, lift. rewrite Hi. cbn [trace tape app]. rewrite Hlog.
  reflexivity.
Qed.

End Examples.

(** ** Further facts about the loader *)

Section MoreLoaderFacts.

Import Data.
Local Open Scope Z_scope.

Lemma sort_desc_sorted_id (l : list (string * Q)) :
  StronglySorted desc l -> sort_desc l = l.
Proof.
  induction 1 as [|o t Hs IH Hall]; simpl; [reflexivity|].
  rewrite IH. destruct t as [|h t']; simpl; [reflexivity|].
  inversion Hall as [|? ? Hh _]; subst. unfold desc in Hh.
  apply Qle_bool_iff in Hh. now rewrite Hh.
Qed.

Lemma combine_sorted (names : list string) (preds : list Q) :
  StronglySorted (fun a b => (b <= a)%Q) preds ->
  StronglySorted desc (combine names preds).
Proof.
  intros H; revert names.
  induction H as [|p ps Hs IH Hall]; intros [|n ns]; simpl; try constructor.
  - apply IH.
  - apply Forall_forall. intros [m q] Hin. unfold desc; simpl.
    apply in_combine_r in Hin. rewrite Forall_forall in Hall. now apply Hall.
Qed.

Lemma decode_predictions_eq (preds : list Q) (top : Z) :
  (length preds <= 3)%nat ->
  decode_predictions preds top
  = Ok (slice_to (sort_desc (combine CLASS_NAMES preds))
                 (Z.min top (Z.of_nat (length preds)))).
Proof.
  intros Hlen. unfold decode_predictions. rewrite (decoded_names preds Hlen).
  cbv beta iota zeta delta [rbind].
  rewrite (Permutation_length (sort_desc_perm _)), length_combine.
  unfold CLASS_NAMES; simpl length. now rewrite Nat.min_r by lia.
Qed.

(** X1.  With [top = 1] on one to three probabilities, the function returns
    one pair, a class name with its own probability, and no probability of
    the vector is larger. *)
Theorem decode_top1_is_most_probable :
  forall preds : list Q,
    (1 <= length preds <= 3)%nat ->
    exists name p,
      decode_predictions preds 1 = Ok [(name, p)] /\
      In (name, p) (combine CLASS_NAMES preds) /\
      Forall (fun q => (q <= p)%Q) preds.
Proof.
  intros preds [H1 H3].
  pose proof (sort_desc_perm (combine CLASS_NAMES preds)) as P.
  pose proof (sort_desc_sorted (combine CLASS_NAMES preds)) as S.
  rewrite decode_predictions_eq by exact H3.
  assert (Hl : length (combine CLASS_NAMES preds) = length preds).
  { rewrite length_combine. unfold CLASS_NAMES; simpl length. lia. }
  destruct (sort_desc (combine CLASS_NAMES preds)) as [|[name p] rest] eqn:E.
  { apply Permutation_length in P. rewrite Hl in P. simpl in P. lia. }
  exists name, p. split; [|split].
  - unfold slice_to. replace (Z.min 1 (Z.of_nat (length preds))) with 1 by lia.
    reflexivity.
  - apply (Permutation_in _ P). now left.
  - apply Forall_forall. intros q Hq.
    assert (Hin : exists n, In (n, q) (combine CLASS_NAMES preds)).
    { clear -Hq H3. destruct preds as [|a [|b [|c [|d t]]]]; simpl in *; try lia;
        intuition (subst; eauto). }
    destruct Hin as [n Hn].
    apply (Permutation_in _ (Permutation_sym P)) in Hn.
    inversion S as [|? ? _ Hall]; subst.
    destruct Hn as [Hn|Hn]; [inversion Hn; subst; apply Qle_refl|].
    rewrite Forall_forall in Hall. exact (Hall _ Hn).
Qed.

(** X2.  A vector that is already in decreasing order, ties included, is
    returned in class order: the first [min top (len preds)] classes with
    their probabilities. *)
Theorem decode_keeps_class_order_when_sorted :
  forall (preds : list Q) (top : Z),
    (length preds <= 3)%nat -> 0 <= top ->
    StronglySorted (fun a b => (b <= a)%Q) preds ->
    decode_predictions preds top
    = Ok (firstn (Z.to_nat (Z.min top (Z.of_nat (length preds))))
                 (combine CLASS_NAMES preds)).
Proof.
  intros preds top Hlen Htop Hs.
  rewrite decode_predictions_eq by exact Hlen.
  rewrite (sort_desc_sorted_id _ (combine_sorted CLASS_NAMES preds Hs)).
  unfold slice_to.
  destruct (Z.leb_spec 0 (Z.min top (Z.of_nat (length preds)))); [reflexivity | lia].
Qed.

(** X3.  A negative [top] is taken as a slice bound: the function returns
    the ranking without its last [-top] pairs (nothing if there are not that
    many). *)
Theorem decode_negative_top_drops_tail :
  forall (preds : list Q) (top : Z),
    (length preds <= 3)%nat -> top < 0 ->
    exists ranked,
      Permutation ranked (combine CLASS_NAMES preds) /\
      StronglySorted desc ranked /\
      decode_predictions preds top
      = Ok (firstn (length preds - Z.to_nat (- top)) ranked).
Proof.
  intros preds top Hlen Htop.
  exists (sort_desc (combine CLASS_NAMES preds)).
  split; [apply sort_desc_perm|]. split; [apply sort_desc_sorted|].
  rewrite decode_predictions_eq by exact Hlen. unfold slice_to.
  assert (Hl : length (sort_desc (combine CLASS_NAMES preds)) = length preds).
  { rewrite (Permutation_length (sort_desc_perm _)), length_combine.
    unfold CLASS_NAMES; simpl length. lia. }
  rewrite Hl.
  destruct (Z.leb_spec 0 (Z.min top (Z.of_nat (length preds)))); [lia|].
  do 2 f_equal. lia.
Qed.

(** X4.  More than three predictions cannot be named: the function raises
    [IndexError] whatever [top] is. *)
Theorem decode_more_than_three_raises :
  forall (preds : list Q) (top : Z),
    (3 < length preds)%nat ->
    decode_predictions preds top = Raise (IndexError "list index out of range").
Proof. intros preds top H. now apply decoded_too_long. Qed.


(** X5.  When the file has no [images] dataset and lacks any one of the five
    datasets of a labeled file, the loader raises [KeyError], whatever the
    options. *)
Theorem load_missing_dataset_raises :
  forall (h5 : H5File) (categorical flatten max_charge binary : bool),
    h5_images h5 = None ->
    h5_train_features h5 = None \/ h5_train_targets h5 = None \/
    h5_test_features h5 = None \/ h5_test_targets h5 = None \/
    h5_max_charge h5 = None ->
    load_image_h5 h5 categorical flatten max_charge binary
    = Raise (KeyError "unable to open object").
Proof.
  intros [im trX trY teX teY mcs] c f m b Him H. simpl in *. subst im.
  unfold load_image_h5; simpl.
  destruct trX as [trX|]; simpl; [|reflexivity].
  destruct trY as [trY|]; simpl; [|reflexivity].
  destruct teX as [teX|]; simpl; [|reflexivity].
  destruct teY as [teY|]; simpl; [|reflexivity].
  destruct mcs as [mcs|]; simpl; [|reflexivity].
  destruct H as [H|[H|[H|[H|H]]]]; discriminate.
Qed.

(** X6.  With [categorical], [flatten] and [binary] off, the loader returns
    a result exactly when the five datasets are present and [max_charge]
    holds at least one value; the result is then the stored features and
    targets, unchanged, followed by the first stored scale when the
    [max_charge] option is set. *)
Theorem load_plain_returns_stored :
  forall (h5 : H5File) (max_charge : bool) (r : loaded),
    h5_images h5 = None ->
    (load_image_h5 h5 false false max_charge false = Ok r <->
     exists trX trY teX teY mc mcs,
       h5_train_features h5 = Some trX /\ h5_train_targets h5 = Some trY /\
       h5_test_features h5 = Some teX /\ h5_test_targets h5 = Some teY /\
       h5_max_charge h5 = Some (mc :: mcs) /\
       r = if max_charge
           then LTriple (FImages trX, TLabels trY) (FImages teX, TLabels teY) mc
           else LPair (FImages trX, TLabels trY) (FImages teX, TLabels teY)).
Proof.
  intros [im trX trY teX teY mcs] m r Him. simpl in *. subst im.
  unfold load_image_h5; simpl. split.
  - destruct trX as [trX|]; simpl; [|discriminate].
    destruct trY as [trY|]; simpl; [|discriminate].
    destruct teX as [teX|]; simpl; [|discriminate].
    destruct teY as [teY|]; simpl; [|discriminate].
    destruct mcs as [[|mc mcs]|]; simpl; try discriminate.
    intros H. exists trX, trY, teX, teY, mc, mcs.
    repeat (split; [reflexivity|]). destruct m; now inversion H.
  - intros [a [b [c [d [mc [ms [-> [-> [-> [-> [-> ->]]]]]]]]]]].
    simpl. destruct m; reflexivity.
Qed.

Lemma length_concat_uniform {A} (n : nat) (l : list (list A)) :
  Forall (fun x => length x = n) l -> length (concat l) = (length l * n)%nat.
Proof.
  induction 1 as [|x t Hx _ IH]; simpl; [reflexivity|].
  rewrite length_app, IH, Hx. reflexivity.
Qed.

Lemma flat_length (rows cols channels : nat) (img : Image) :
  shaped rows cols channels img ->
  length (concat (concat img)) = (rows * cols * channels)%nat.
Proof.
  intros [Hr Hall].
  rewrite (length_concat_uniform channels).
  - rewrite (length_concat_uniform cols), Hr; [reflexivity|].
    eapply Forall_impl; [|exact Hall]. now intros row [Hc _].
  - apply Forall_concat. eapply Forall_impl; [|exact Hall]. now intros row [_ Hp].
Qed.

(** X7.  With [flatten=True] on non-empty train and test features whose
    images all have shape (rows, cols, channels), the loader returns one
    vector per image, holding the image's values in row-major order, of
    length rows * cols * channels. *)
Theorem flatten_keeps_every_value :
  forall (trX : list Image) (trY : list Z) (teX : list Image) (teY : list Z)
         (mc : Q) (max_charge binary : bool) (rows cols channels : nat),
    trX <> [] -> teX <> [] ->
    Forall (shaped rows cols channels) (trX ++ teX) ->
    exists r tr te,
      load_image_h5 (labeled_file trX trY teX teY mc) false true max_charge binary
      = Ok r /\
      loaded_features r = Some (FFlat tr, FFlat te) /\
      Forall2 (fun img v => v = concat (concat img)) trX tr /\
      Forall2 (fun img v => v = concat (concat img)) teX te /\
      Forall (fun v => length v = (rows * cols * channels)%nat) (tr ++ te).
Proof.
  intros trX trY teX teY mc m b rows cols channels Htr Hte Hall.
  set (flat := fun img : Image => concat (concat img)).
  exists (if m
          then LTriple (FFlat (map flat trX),
                        TLabels (if b then collapse trY else trY))
                       (FFlat (map flat teX),
                        TLabels (if b then collapse teY else teY)) mc
          else LPair (FFlat (map flat trX),
                      TLabels (if b then collapse trY else trY))
                     (FFlat (map flat teX),
                      TLabels (if b then collapse teY else teY))).
  exists (map flat trX), (map flat teX).
  split; [|split; [|split; [|split]]].
  - unfold load_image_h5, labeled_file; simpl.
    destruct trX; [congruence|]. destruct teX; [congruence|].
    destruct b, m; reflexivity.
  - destruct m; reflexivity.
  - clear. induction trX; simpl; constructor; auto.
  - clear. induction teX; simpl; constructor; auto.
  - rewrite <- map_app. apply Forall_map.
    eapply Forall_impl; [|exact Hall]. intros img. apply flat_length.
Qed.

(** X8.  With [flatten=True] (and [categorical] off), a file whose train or
    test features are an empty array makes the loader raise [ValueError]:
    the reshape cannot infer the unknown dimension. *)
Theorem flatten_empty_features_raises :
  forall (trX : list Image) (trY : list Z) (teX : list Image) (teY : list Z)
         (mc : Q) (max_charge binary : bool),
    trX = [] \/ teX = [] ->
    load_image_h5 (labeled_file trX trY teX teY mc) false true max_charge binary
    = Raise (ValueError "cannot reshape array of size 0").
Proof.
  intros trX trY teX teY mc m b H.
  unfold load_image_h5, labeled_file; simpl.
  destruct b; simpl; destruct trX; simpl; try reflexivity;
    destruct teX; simpl; try reflexivity; destruct H; discriminate.
Qed.

Lemma collapse_two_class (t : list Z) :
  Forall (fun l => l = 0 \/ l = 1) t -> collapse t = t.
Proof.
  induction 1 as [|l t [->| ->] _ IH]; simpl; now rewrite ?IH.
Qed.

(** X9.  On a file whose labels are all 0 or 1, [binary=True] changes
    nothing: the loader returns what it returns with [binary] off, when
    targets are kept as integers and when, the train targets showing both
    labels, they are expanded to one-hot rows. *)
Theorem binary_is_identity_on_two_classes :
  forall (trX : list Image) (trY : list Z) (teX : list Image) (teY : list Z)
         (mc : Q) (flatten max_charge : bool),
    Forall (fun l => l = 0 \/ l = 1) (trY ++ teY) ->
    load_image_h5 (labeled_file trX trY teX teY mc) false flatten max_charge true
    = load_image_h5 (labeled_file trX trY teX teY mc) false flatten max_charge false
    /\
    (count_unique trY = 2 ->
     load_image_h5 (labeled_file trX trY teX teY mc) true flatten max_charge true
     = load_image_h5 (labeled_file trX trY teX teY mc) true flatten max_charge false).
Proof.
  intros trX trY teX teY mc f m H. apply Forall_app in H. destruct H as [H1 H2].
  unfold load_image_h5, labeled_file; simpl.
  rewrite (collapse_two_class _ H1), (collapse_two_class _ H2).
  split; [reflexivity|]. intros ->. reflexivity.
Qed.

(** X10.  With [categorical=True] and [binary] off, a file without train
    targets makes the loader raise [ValueError]: the number of categories is
    0, so the encoder asks for the largest label of an empty array. *)
Theorem categorical_without_train_raises :
  forall (trX teX : list Image) (teY : list Z) (mc : Q)
         (flatten max_charge : bool),
    load_image_h5 (labeled_file trX [] teX teY mc) true flatten max_charge false
    = Raise (ValueError "zero-size array to reduction operation maximum which has no identity").
Proof. reflexivity. Qed.

(** X11.  The one-hot rows tell the labels apart: two labels in [0, k) with
    the same row are the same label. *)
Theorem one_hot_injective :
  forall k i j : Z,
    0 <= i < k -> 0 <= j < k -> one_hot k i = one_hot k j -> i = j.
Proof.
  intros k i j Hi Hj H.
  rewrite !one_hot_in_range in H by assumption. inversion H as [E].
  destruct (unit_row_one_hot k i ltac:(lia)) as [_ Ni].
  destruct (unit_row_one_hot k j ltac:(lia)) as [_ Nj].
  specialize (Ni i Hi). specialize (Nj i Hi). rewrite E in Ni.
  rewrite Ni in Nj. rewrite Z.eqb_refl in Nj.
  destruct (Z.eqb_spec i j); [assumption | discriminate].
Qed.

End MoreLoaderFacts.

(** ** Further facts about the generator's stages *)

Section MoreGeneratorFacts.

Import GenerateImages.
Local Open Scope R_scope.

Lemma _l_nonneg (a : R) :
  0 <= a ->
  _l a = Ok (if Req_EM_T a 0 then PyInt 0 else PyFloat (log10 a)).
Proof.
  intros Ha. unfold _l. destruct (Req_EM_T a 0); [reflexivity|].
  destruct (Rlt_dec 0 a); [reflexivity | lra].
Qed.

Lemma np_vectorize_first_positive (x0 : R) (rest : list R) :
  0 < x0 -> Forall (fun a => 0 <= a) rest ->
  np_vectorize _l (x0 :: rest) = Ok (map spec_transform (x0 :: rest)).
Proof.
  intros H0 Hrest.
  set (v := fun a => if Req_EM_T a 0 then PyInt 0 else PyFloat (log10 a)).
  assert (Hm : mapM _l (x0 :: rest) = Ok (map v (x0 :: rest))).
  { apply mapM_ok_map. intros a [<- | Ha]; apply _l_nonneg; [lra|].
    rewrite Forall_forall in Hrest. now apply Hrest. }
  unfold np_vectorize. rewrite Hm, _l_pos by exact H0.
  cbv beta iota delta [rbind dtype_of]. f_equal. rewrite map_map.
  apply map_ext. intros a. unfold v, spec_transform; simpl.
  destruct (Req_EM_T a 0); reflexivity.
Qed.

(** X26.  The scalar function [_l] returns 0 at 0 and [log10 a] at every
    [a > 0], does not decrease between two positive charges, and raises
    [ValueError] on a negative charge. *)
Theorem charge_transform_scalar :
  (forall a, 0 <= a -> exists v, _l a = Ok v /\ num_val v = spec_transform a) /\
  (forall a b, 0 < a -> a <= b ->
     exists va vb, _l a = Ok va /\ _l b = Ok vb /\ num_val va <= num_val vb) /\
  (forall a, a < 0 -> _l a = Raise (ValueError "math domain error")).
Proof.
  split; [exact (proj1 _l_transform)|].
  split; [exact (proj2 _l_transform) | exact _l_neg].
Qed.

(** X12.  On an event whose first charge is positive and whose other
    charges are not negative, the log stage replaces every charge by its
    transform, 0 for 0 and [log10] otherwise, and changes nothing else. *)
Theorem log_event_elementwise_when_first_positive :
  forall (p : Point) (t : Event) (label : Z),
    0 < pq p -> Forall (fun q => 0 <= pq q) t ->
    log_event (p :: t, label)
    = Ok (map (fun q => set_pq q (spec_transform (pq q))) (p :: t), label).
Proof.
  intros p t label Hp Ht.
  assert (Hv : np_vectorize _l (charges (p :: t))
               = Ok (map spec_transform (charges (p :: t)))).
  { unfold charges. rewrite map_cons.
    apply np_vectorize_first_positive; [exact Hp | now apply Forall_map]. }
  unfold log_event. cbn [fst snd]. rewrite Hv.
  cbv beta iota delta [rbind]. now rewrite set_charges_map.
Qed.

Lemma set_charges_geometry (e : Event) (cs : list R) :
  length cs = length e ->
  Forall2 (fun q q' => px q' = px q /\ py q' = py q /\ pz q' = pz q)
          e (set_charges e cs).
Proof.
  unfold set_charges. revert cs.
  induction e as [|q e IH]; intros [|c cs] H; simpl in *; try discriminate;
    constructor; auto.
Qed.

Lemma np_vectorize_length (f : R -> result pynum) (xs cs : list R) :
  np_vectorize f xs = Ok cs -> length cs = length xs.
Proof.
  unfold np_vectorize. destruct xs as [|x0 t]; [discriminate|].
  destruct (f x0) as [first|e]; [|discriminate]. cbv beta iota delta [rbind].
  destruct (mapM f (x0 :: t)) as [outs|e] eqn:Hm; [|discriminate].
  intros H; inversion H; subst. rewrite length_map. now apply mapM_length in Hm.
Qed.

(** X13.  When the log stage returns, it returns as many events, each with
    its label, its number of points and the x, y, z of every point
    unchanged: only the charge column is rewritten. *)
Theorem log_stage_changes_only_charges :
  forall data d : list Labeled,
    log_stage data = Ok d ->
    Forall2 (fun e e' =>
               snd e' = snd e /\
               Forall2 (fun q q' => px q' = px q /\ py q' = py q /\ pz q' = pz q)
                       (fst e) (fst e'))
            data d.
Proof.
  intros data d H. apply mapM_Forall2 in H.
  induction H as [|e e' t t' He _ IH]; constructor; [|exact IH].
  unfold log_event in He.
  destruct (np_vectorize _l (charges (fst e))) as [cs|err] eqn:Hv; [|discriminate].
  simpl in He. inversion He; subst; simpl. split; [reflexivity|].
  apply set_charges_geometry. apply np_vectorize_length in Hv.
  unfold charges in Hv. now rewrite length_map in Hv.
Qed.

Lemma mapM__l_negative (xs : list R) :
  Exists (fun a => a < 0) xs ->
  mapM _l xs = Raise (ValueError "math domain error").
Proof.
  intros H. destruct (mapM _l xs) as [vs|err] eqn:Hm.
  - assert (Hf : is_ok (mapM _l xs) = false).
    { apply mapM_exists_raise. eapply Exists_impl; [|exact H].
      intros a Ha; simpl. now rewrite _l_neg. }
    rewrite Hm in Hf. discriminate.
  - apply mapM_raise_in in Hm. destruct Hm as [a [_ Ha]]. unfold _l in Ha.
    destruct (Req_EM_T a 0); [discriminate|].
    destruct (Rlt_dec 0 a); [discriminate | congruence].
Qed.

(** X14.  An event with a negative charge stops the log stage with
    [ValueError('math domain error')]. *)
Theorem log_event_negative_charge_raises :
  forall (e : Event) (label : Z),
    Exists (fun q => pq q < 0) e ->
    log_event (e, label) = Raise (ValueError "math domain error").
Proof.
  intros e label H.
  assert (Hc : Exists (fun a => a < 0) (charges e)).
  { unfold charges. apply Exists_exists in H. destruct H as [q [Hq Hneg]].
    apply Exists_exists. exists (pq q). split; [now apply in_map | exact Hneg]. }
  pose proof (mapM__l_negative _ Hc) as Hm.
  unfold log_event, np_vectorize; simpl.
  destruct (charges e) as [|x0 t] eqn:E; [inversion Hc|].
  unfold _l at 1. destruct (Req_EM_T x0 0); [|destruct (Rlt_dec 0 x0)];
    cbv beta iota delta [rbind]; try reflexivity; now rewrite Hm.
Qed.

(** X15.  Where the scale is positive, the normalised train charges are at
    most 1 and one of them is 1. *)
Theorem normalized_train_peaks_at_one :
  forall (train test tr te : list Labeled) (mc : R),
    normalize train test = Ok (mc, tr, te) -> 0 < mc ->
    (forall e q, In e tr -> In q (fst e) -> pq q <= 1) /\
    (exists e q, In e tr /\ In q (fst e) /\ pq q = 1).
Proof.
  intros train test tr te mc H Hpos.
  assert (Hne : train <> []).
  { intros ->. discriminate. }
  assert (Hall : Forall (fun e => fst e <> []) train).
  { apply Forall_forall. intros e He Hnil.
    assert (Hr : max_charge train = Raise zero_size_msg).
    { apply max_charge_empty_event. apply Exists_exists. eauto. }
    unfold normalize in H. now rewrite Hr in H. }
  destruct (max_charge_spec train Hne Hall) as [m [Hm [[e0 [q0 [He0 [Hq0 Hmax]]]] Hle]]].
  unfold normalize in H. rewrite Hm in H. simpl in H.
  injection H as Hmc Htr Hte. subst tr te. rewrite Hmc in *. clear Hmc m.
  split.
  - intros e q He Hq. apply in_map_iff in He. destruct He as [e1 [<- He1]].
    unfold scale_event in Hq; simpl in Hq. apply in_map_iff in Hq.
    destruct Hq as [q1 [<- Hq1]]. simpl.
    apply (Rmult_le_reg_r mc); [exact Hpos|].
    unfold Rdiv. rewrite Rmult_assoc, Rinv_l by lra.
    specialize (Hle e1 q1 He1 Hq1). lra.
  - exists (scale_event mc e0), (set_pq q0 (pq q0 / mc)).
    split; [now apply in_map|]. split.
    + unfold scale_event; simpl.
      apply (in_map (fun point => set_pq point (pq point / mc))). exact Hq0.
    + simpl. rewrite Hmax. unfold Rdiv. apply Rinv_r. lra.
Qed.

(** X16.  The test partition holds [ceil(N / 5)] events: it is never empty
    when there is an event, and the train partition is empty exactly when
    there are fewer than two. *)
Theorem split_partition_sizes :
  forall data : list Labeled,
    length (snd (split data)) = ((length data + 4) / 5)%nat /\
    (data <> [] -> snd (split data) <> []) /\
    (fst (split data) = [] <-> (length data <= 1)%nat).
Proof.
  intros data. pose proof (split_spec data) as H. unfold split in *. simpl in *.
  destruct H as [Ha [Hb _]]. unfold partition_index in *.
  set (N := length data) in *.
  pose proof (Nat.div_mod_eq (4 * N) 5) as E1.
  pose proof (Nat.mod_upper_bound (4 * N) 5 ltac:(lia)) as B1.
  pose proof (Nat.div_mod_eq (N + 4) 5) as E2.
  pose proof (Nat.mod_upper_bound (N + 4) 5 ltac:(lia)) as B2.
  assert (Hsz : (N - 4 * N / 5 = (N + 4) / 5)%nat) by lia.
  split; [now rewrite Hb|]. split.
  - intros Hne Hnil. apply (f_equal (@length _)) in Hnil. rewrite Hb in Hnil.
    cbn [length] in Hnil. assert (N <> 0)%nat.
    { unfold N. destruct data; [congruence | simpl; lia]. }
    lia.
  - split.
    + intros Hnil. apply (f_equal (@length _)) in Hnil. rewrite Ha in Hnil.
      cbn [length] in Hnil. lia.
    + intros Hle. apply length_zero_iff_nil. rewrite Ha. lia.
Qed.

End MoreGeneratorFacts.

(** ** Further facts about ingestion and whole runs *)

Section MoreRunFacts.

Import GenerateImages.

Variable Image : Type.
Variable rasterize : Scatter -> Image.
Variable add_noise : Event -> Event.

Lemma label_events_spec (r : Run) (code : string) (label : Z) (l : list Labeled) :
  label_events r code label = Ok l ->
  length l = length (indices code r) /\
  Forall (fun ev => snd ev = label /\
                    exists evt_id, In (evt_id, code) (run_labels r) /\
                                   get_xyzs r evt_id = Ok (fst ev)) l.
Proof.
  intros H. split; [exact (mapM_length _ _ _ H)|].
  apply mapM_Forall2 in H. apply Forall_forall. intros ev Hev.
  destruct (Forall2_In_r _ _ _ _ H Hev) as [evt_id [Hid Hget]].
  destruct (get_xyzs r evt_id) as [xyzs|err] eqn:Hx; [|discriminate].
  simpl in Hget. inversion Hget; subst ev; simpl. split; [reflexivity|].
  exists evt_id. split; [|exact Hx].
  unfold indices in Hid. apply in_map_iff in Hid.
  destruct Hid as [[id c] [Hfst Hin]]. simpl in Hfst; subst id.
  apply filter_In in Hin. destruct Hin as [Hin Hc]. simpl in Hc.
  apply String.eqb_eq in Hc. now subst c.
Qed.

Lemma Forall2_map_l {A B C} (P : B -> C -> Prop) (f : A -> B) l l' :
  Forall2 P (map f l) l' -> Forall2 (fun x y => P (f x) y) l l'.
Proof.
  revert l'; induction l as [|x t IH]; intros l' H; inversion H; subst;
    constructor; auto.
Qed.

Lemma get_xyzs_stored (r : Run) (evt_id : Z) (xyzs : Event) :
  get_xyzs r evt_id = Ok xyzs -> In (evt_id, xyzs) (run_events r).
Proof.
  unfold get_xyzs.
  destruct (find _ (run_events r)) as [[id x]|] eqn:Hf; [|discriminate].
  intros H; inversion H; subst. apply find_some in Hf. destruct Hf as [Hin Heq].
  simpl in Heq. apply Z.eqb_eq in Heq. now subst id.
Qed.

(** The events that one code of the label table contributes: one per row
    with that code, in the order of the rows, each the event that the run
    file returns for the row's id, with the label of the code. *)
Lemma label_events_rows (r : Run) (code : string) (label : Z) (l : list Labeled) :
  label_events r code label = Ok l ->
  Forall2 (fun row ev =>
             get_xyzs r (fst row) = Ok (fst ev) /\
             In (fst row, fst ev) (run_events r) /\ snd ev = label)
          (filter (fun row => String.eqb (snd row) code) (run_labels r)) l.
Proof.
  intros H. apply mapM_Forall2 in H. unfold indices in H.
  apply Forall2_map_l in H.
  eapply Forall2_impl; [|exact H]. intros row ev Hrow. simpl in Hrow.
  destruct (get_xyzs r (fst row)) as [xyzs|err] eqn:Hx; [|discriminate].
  simpl in Hrow. inversion Hrow; subst ev; simpl.
  split; [reflexivity|]. split; [now apply get_xyzs_stored | reflexivity].
Qed.

(** X17.  When a run is ingested by [real_labeled], the data is, in this
    order, one event for every row of the label table with code p, one for
    every row with code c and one for every row with code j, the rows of a
    code in table order; the event of a row is the one the run file returns
    for the row's id, and it is labeled 0 for p, 1 for c and 2 for j.  Rows
    with any other code contribute nothing. *)
Theorem ingest_labeled_run_follows_table :
  forall (files : Files) (run : string) (r : Run) (data : list Labeled),
    open_run files run = Ok r ->
    ingest_labeled_run files run = Ok data ->
    exists protons carbons junk,
      data = protons ++ carbons ++ junk /\
      Forall2 (fun row ev =>
                 get_xyzs r (fst row) = Ok (fst ev) /\
                 In (fst row, fst ev) (run_events r) /\ snd ev = 0%Z)
              (filter (fun row => String.eqb (snd row) "p") (run_labels r)) protons /\
      Forall2 (fun row ev =>
                 get_xyzs r (fst row) = Ok (fst ev) /\
                 In (fst row, fst ev) (run_events r) /\ snd ev = 1%Z)
              (filter (fun row => String.eqb (snd row) "c") (run_labels r)) carbons /\
      Forall2 (fun row ev =>
                 get_xyzs r (fst row) = Ok (fst ev) /\
                 In (fst row, fst ev) (run_events r) /\ snd ev = 2%Z)
              (filter (fun row => String.eqb (snd row) "j") (run_labels r)) junk.
Proof.
  intros files run r data Hopen H. unfold ingest_labeled_run in H.
  rewrite Hopen in H. cbv beta iota delta [rbind] in H.
  destruct (label_events r "p" 0) as [ps|e] eqn:Hp; [|discriminate].
  destruct (label_events r "c" 1) as [cs|e] eqn:Hc; [|discriminate].
  destruct (label_events r "j" 2) as [js|e] eqn:Hj; [|discriminate].
  inversion H; subst data. exists ps, cs, js.
  split; [reflexivity|].
  split; [exact (label_events_rows _ _ _ _ Hp)|].
  split; [exact (label_events_rows _ _ _ _ Hc) | exact (label_events_rows _ _ _ _ Hj)].
Qed.

Lemma get_xyzs_absent (r : Run) (evt_id : Z) :
  (forall xyzs, ~ In (evt_id, xyzs) (run_events r)) ->
  get_xyzs r evt_id = Raise (KeyError "event not found").
Proof.
  intros H. unfold get_xyzs.
  destruct (find _ (run_events r)) as [[id xyzs]|] eqn:Hf; [|reflexivity].
  apply find_some in Hf. destruct Hf as [Hin Heq]. simpl in Heq.
  apply Z.eqb_eq in Heq. subst id. now destruct (H xyzs).
Qed.

Lemma label_events_raises (r : Run) (code : string) (label : Z) (err : exn) :
  label_events r code label = Raise err -> err = KeyError "event not found".
Proof.
  intros H. apply mapM_raise_in in H. destruct H as [id [_ Hid]].
  unfold get_xyzs in Hid. destruct (find _ (run_events r)); simpl in Hid;
    [discriminate | congruence].
Qed.

Lemma label_events_absent (r : Run) (code : string) (label : Z) (evt_id : Z) :
  In (evt_id, code) (run_labels r) ->
  (forall xyzs, ~ In (evt_id, xyzs) (run_events r)) ->
  label_events r code label = Raise (KeyError "event not found").
Proof.
  intros Hin Habs.
  destruct (label_events r code label) as [l|err] eqn:H.
  - assert (Hf : is_ok (label_events r code label) = false).
    { apply mapM_exists_raise. apply Exists_exists. exists evt_id. split.
      - unfold indices. apply in_map_iff. exists (evt_id, code). split; [reflexivity|].
        apply filter_In. split; [exact Hin | apply String.eqb_refl].
      - now rewrite (get_xyzs_absent r evt_id Habs). }
    rewrite H in Hf. discriminate.
  - f_equal. eapply label_events_raises; eassumption.
Qed.

(** X18.  A row of the label table with code p, c or j whose event id is
    not in the run's event file makes the ingestion of that run raise
    [KeyError]. *)
Theorem ingest_labeled_run_missing_event :
  forall (files : Files) (run : string) (r : Run) (evt_id : Z) (code : string),
    open_run files run = Ok r ->
    In (evt_id, code) (run_labels r) ->
    code = "p" \/ code = "c" \/ code = "j" ->
    (forall xyzs, ~ In (evt_id, xyzs) (run_events r)) ->
    ingest_labeled_run files run = Raise (KeyError "event not found").
Proof.
  intros files run r evt_id code Hopen Hin Hcode Habs.
  unfold ingest_labeled_run. rewrite Hopen. cbv beta iota delta [rbind].
  destruct (label_events r "p" 0) as [ps|e] eqn:Hp;
    [|f_equal; eapply label_events_raises; eassumption].
  destruct (label_events r "c" 1) as [cs|e] eqn:Hc;
    [|f_equal; eapply label_events_raises; eassumption].
  destruct (label_events r "j" 2) as [js|e] eqn:Hj;
    [|f_equal; eapply label_events_raises; eassumption].
  destruct Hcode as [-> | [-> | ->]].
  - rewrite (label_events_absent r "p" 0 evt_id Hin Habs) in Hp. discriminate.
  - rewrite (label_events_absent r "c" 1 evt_id Hin Habs) in Hc. discriminate.
  - rewrite (label_events_absent r "j" 2 evt_id Hin Habs) in Hj. discriminate.
Qed.

(** X19.  [real_unlabeled] takes every event of run 0130 and then every
    event of run 0210, in file order, whatever the label tables say, each
    with the label -1. *)
Theorem ingest_unlabeled_takes_every_event :
  forall (files : Files) (r1 r2 : Run),
    open_run files "0130" = Ok r1 -> open_run files "0210" = Ok r2 ->
    exists data,
      ingest_unlabeled files = Ok data /\
      map fst data = map snd (run_events r1 ++ run_events r2) /\
      Forall (fun ev => snd ev = (-1)%Z) data.
Proof.
  intros files r1 r2 H1 H2.
  exists (map (fun kv => (snd kv, (-1)%Z)) (run_events r1 ++ run_events r2)).
  split; [|split].
  - unfold ingest_unlabeled, RUNS, ingest_unlabeled_run; simpl.
    rewrite H1, H2; simpl. now rewrite app_nil_r, map_app.
  - rewrite map_map. reflexivity.
  - apply Forall_map, Forall_forall. reflexivity.
Qed.

(** X20.  A missing input file stops the run in the ingestion, before the
    log stage and without a random draw: run 0130 for the two real modes,
    the proton or the carbon file for [simulated]. *)
Theorem missing_input_stops_in_ingestion :
  forall (projection : pyval) (noise : bool) (num_events : Z) (files : Files)
         (save_path prefix : string) (draws : list nat),
    ((forall r, ~ In ("0130", r) (fs_runs files)) ->
     run (real_labeled Image rasterize projection files save_path prefix) draws
     = (mkState draws [StIngest], Raise (OSError "unable to open file")) /\
     run (real_unlabeled Image rasterize projection files save_path prefix) draws
     = (mkState draws [StIngest], Raise (OSError "unable to open file"))) /\
    (fs_proton files = None \/ fs_carbon files = None ->
     run (simulated Image rasterize add_noise projection noise num_events files
                    save_path prefix) draws
     = (mkState draws [StIngest], Raise (OSError "unable to open file"))).
Proof.
  intros projection noise num_events files save_path prefix draws. split.
  - intros Habs.
    assert (Ho : open_run files "0130" = Raise (OSError "unable to open file")).
    { unfold open_run.
      destruct (find _ (fs_runs files)) as [[id r]|] eqn:Hf; [|reflexivity].
      apply find_some in Hf. destruct Hf as [Hin Heq]. simpl in Heq.
      apply String.eqb_eq in Heq. subst id. now destruct (Habs r). }
    unfold run, real_labeled, real_unlabeled, bind, tell, lift,
      ingest_labeled, ingest_unlabeled, RUNS, ingest_labeled_run,
      ingest_unlabeled_run; simpl.
    rewrite Ho; simpl. split; reflexivity.
  - intros H. unfold run, simulated, bind, tell, lift, ingest_simulated; simpl.
    destruct (fs_proton files); simpl.
    + destruct (fs_carbon files); simpl; [|reflexivity].
      destruct H; discriminate.
    + reflexivity.
Qed.














Lemma finish_labeled_short (disk : Disk) (save_path prefix : string)
  keys projection (data : list Labeled) s :
  (length data <= 1)%nat ->
  finish_labeled Image rasterize disk save_path prefix keys projection data s
  = (mkState (tape s) (trace s ++ [StSplit; StNormalize]), Raise zero_size_msg).
Proof.
  intros H. destruct data as [|a [|b t]]; simpl in H; try lia;
    unfold finish_labeled, bind, tell, lift; cbn [split fst snd trace tape];
    now rewrite <- app_assoc.
Qed.

(** X24.  A labeled run needs two events: on none or one, the train
    partition is empty, so [real_labeled] and [simulated] raise without
    rendering, whatever the projection; when the log stage passes, the
    error is the [ValueError] of the maximum of an empty array. *)
Theorem labeled_run_needs_two_events :
  forall (disk : Disk) (save_path prefix : string)
         (projection : pyval) (data : list Labeled) (draws : list nat),
    (length data <= 1)%nat ->
    (exists s err,
        run (real_labeled_stages Image rasterize disk save_path prefix projection data) draws
        = (s, Raise err) /\ ~ In StRender (trace s) /\
        (forall d, log_stage data = Ok d -> err = zero_size_msg)) /\
    (exists s err,
        run (simulated_stages Image rasterize disk save_path prefix projection data) draws
        = (s, Raise err) /\ ~ In StRender (trace s) /\
        (forall d, log_stage data = Ok d -> err = zero_size_msg)).
Proof.
  intros disk save_path prefix projection data draws Hlen.
  destruct (log_stage data) as [d|e] eqn:Hlog.
  - destruct (log_stage_ok _ _ Hlog) as [Hl _].
    split.
    + unfold run, real_labeled_stages, bind, tell, lift. rewrite Hlog.
      cbn [trace tape app].
      match goal with |- context [shuffle d ?st] =>
        destruct (shuffle_spec d st) as [d1 [t1 [E1 P1]]]; rewrite E1 end.
      match goal with |- context [shuffle d1 ?st] =>
        destruct (shuffle_spec d1 st) as [d2 [t2 [E2 P2]]]; rewrite E2 end.
      rewrite finish_labeled_short
        by (rewrite (Permutation_length P2), (Permutation_length P1); lia).
      eexists _, _. split; [reflexivity|]. cbn [trace]. split; [|reflexivity].
      simpl. intros H; repeat destruct H as [H|H]; discriminate || contradiction.
    + unfold run, simulated_stages, bind, tell, lift. rewrite Hlog.
      cbn [trace tape app].
      match goal with |- context [shuffle d ?st] =>
        destruct (shuffle_spec d st) as [d1 [t1 [E1 P1]]]; rewrite E1 end.
      rewrite finish_labeled_short by (rewrite (Permutation_length P1); lia).
      eexists _, _. split; [reflexivity|]. cbn [trace]. split; [|reflexivity].
      simpl. intros H; repeat destruct H as [H|H]; discriminate || contradiction.
  - destruct (stages_log_raise Image rasterize disk save_path prefix projection data
                (mkState draws []) e Hlog) as [E1 [_ E3]].
    unfold run. rewrite E1, E3. simpl.
    split; eexists _, _; (split; [reflexivity|]);
      (split; [apply not_rendered_1; discriminate | intros d; discriminate]).
Qed.

Lemma finish_labeled_empty_path (disk : Disk) (prefix : string)
  keys projection (data : list Labeled) s :
  is_ok (snd (finish_labeled Image rasterize disk EmptyString prefix
                             keys projection data s)) = false.
Proof.
  unfold finish_labeled. destruct (split data) as [train test].
  unfold bind at 1. unfold tell at 1. unfold bind at 1. unfold tell at 1.
  unfold bind at 1. unfold lift at 1.
  destruct (normalize train test) as [[[mc tr] te]|e]; [|reflexivity].
  unfold bind at 1.
  match goal with |- context [render_all ?a ?b ?c ?d ?e ?st] =>
    destruct (render_all a b c d e st) as [st1 [x|e1]] end; [|reflexivity].
  unfold bind at 1.
  match goal with |- context [render_all ?a ?b ?c ?d ?e ?st] =>
    destruct (render_all a b c d e st) as [st2 [y|e2]] end; [|reflexivity].
  reflexivity.
Qed.

Lemma stages_empty_path (disk : Disk) (prefix : string) projection data s :
  is_ok (snd (real_labeled_stages Image rasterize disk EmptyString prefix
                                  projection data s)) = false /\
  is_ok (snd (real_unlabeled_stages Image rasterize disk EmptyString prefix
                                    projection data s)) = false /\
  is_ok (snd (simulated_stages Image rasterize disk EmptyString prefix
                               projection data s)) = false.
Proof.
  split; [|split].
  - unfold real_labeled_stages, bind, tell, lift.
    destruct (log_stage data) as [d|e]; [|reflexivity].
    match goal with |- context [shuffle d ?st] =>
      destruct (shuffle_spec d st) as [d1 [t1 [E1 _]]]; rewrite E1 end.
    match goal with |- context [shuffle d1 ?st] =>
      destruct (shuffle_spec d1 st) as [d2 [t2 [E2 _]]]; rewrite E2 end.
    apply finish_labeled_empty_path.
  - unfold real_unlabeled_stages, bind, tell, lift.
    destruct (log_stage data) as [d|e]; [|reflexivity].
    match goal with |- context [shuffle d ?st] =>
      destruct (shuffle_spec d st) as [d1 [t1 [E1 _]]]; rewrite E1 end.
    match goal with |- context [shuffle d1 ?st] =>
      destruct (shuffle_spec d1 st) as [d2 [t2 [E2 _]]]; rewrite E2 end.
    cbn [trace tape].
    destruct (max_charge d2) as [mc|e]; [|reflexivity].
    match goal with |- context [render_all ?a ?b ?c ?d ?e ?st] =>
      destruct (render_all a b c d e st) as [st1 [x|e1]] end; reflexivity.
  - unfold simulated_stages, bind, tell, lift.
    destruct (log_stage data) as [d|e]; [|reflexivity].
    match goal with |- context [shuffle d ?st] =>
      destruct (shuffle_spec d st) as [d1 [t1 [E1 _]]]; rewrite E1 end.
    apply finish_labeled_empty_path.
Qed.

(** X29.  With [--save_path] left at its default, the empty string, no run
    of the script returns a dataset, whatever the mode, the inputs and the
    draws: a run that gets through rendering raises in the save, where
    [os.makedirs] is asked to make the empty path. *)
Theorem default_save_path_never_saves :
  forall (args : Args) (files : Files) (draws : list nat),
    arg_save_path args = EmptyString ->
    is_ok (snd (run (main Image rasterize add_noise args files) draws)) = false.
Proof.
  intros [type projection labeled noise num_events save_path prefix] files draws H.
  simpl in H. subst save_path. unfold run, main.
  cbn [arg_type arg_projection arg_labeled arg_noise arg_num_events
       arg_save_path arg_prefix].
  unfold bind at 1. unfold lift at 1.
  destruct (click_choice ["real"; "sim"] type) as [ty|e]; [|reflexivity].
  unfold bind at 1. unfold lift at 1.
  destruct (click_choice ["xy"; "zy"] projection) as [pr|e]; [|reflexivity].
  destruct (String.eqb ty "real"); [destruct labeled|].
  - unfold bind at 1. unfold real_labeled.
    unfold bind at 1. unfold tell at 1. unfold bind at 1. unfold lift at 1.
    destruct (ingest_labeled files) as [data|e]; [|reflexivity].
    match goal with |- context [real_labeled_stages _ _ ?dk _ ?pf ?p ?d ?st] =>
      pose proof (proj1 (stages_empty_path dk pf p d st)) as Hs;
      destruct (real_labeled_stages Image rasterize dk EmptyString pf p d st)
        as [st' [out|e]] end; [discriminate | reflexivity].
  - unfold bind at 1. unfold real_unlabeled.
    unfold bind at 1. unfold tell at 1. unfold bind at 1. unfold lift at 1.
    destruct (ingest_unlabeled files) as [data|e]; [|reflexivity].
    match goal with |- context [real_unlabeled_stages _ _ ?dk _ ?pf ?p ?d ?st] =>
      pose proof (proj1 (proj2 (stages_empty_path dk pf p d st))) as Hs;
      destruct (real_unlabeled_stages Image rasterize dk EmptyString pf p d st)
        as [st' [out|e]] end; [discriminate | reflexivity].
  - unfold bind at 1. unfold simulated.
    unfold bind at 1. unfold tell at 1. unfold bind at 1. unfold lift at 1.
    destruct (ingest_simulated add_noise noise num_events files) as [data|e];
      [|reflexivity].
    match goal with |- context [simulated_stages _ _ ?dk _ ?pf ?p ?d ?st] =>
      pose proof (proj2 (proj2 (stages_empty_path dk pf p d st))) as Hs;
      destruct (simulated_stages Image rasterize dk EmptyString pf p d st)
        as [st' [out|e]] end; [discriminate | reflexivity].
Qed.

(** X25.  A run whose type argument is neither ['real'] nor ['sim'] ends in
    a usage error while the command line is parsed, before any stage. *)
Theorem invalid_type_rejected_before_any_stage :
  forall (args : Args) (files : Files) (draws : list nat),
    arg_type args <> "real" -> arg_type args <> "sim" ->
    run (main Image rasterize add_noise args files) draws
    = (mkState draws [], Raise (UsageError "invalid choice")).
Proof.
  intros args files draws Hr Hs. unfold run, main, bind, lift, click_choice.
  apply String.eqb_neq in Hr, Hs. simpl existsb. now rewrite Hr, Hs.
Qed.

End MoreRunFacts.

(** ** Instances of the further facts *)

Section MoreExamples.

Import GenerateImages Data.

Lemma decode_top1_is_most_probable_witness :
  (1 <= length probs <= 3)%nat /\
  exists name p,
    decode_predictions probs 1 = Ok [(name, p)] /\
    In (name, p) (combine CLASS_NAMES probs) /\
    Forall (fun q => (q <= p)%Q) probs.
Proof.
  assert (H : (1 <= length probs <= 3)%nat) by (simpl; lia).
  split; [exact H|]. exact (decode_top1_is_most_probable probs H).
Defined.

Lemma decode_keeps_class_order_when_sorted_witness :
  (length [5 # 10; 5 # 10; 0]%Q <= 3)%nat /\ (0 <= 2)%Z /\
  StronglySorted (fun a b => (b <= a)%Q) [5 # 10; 5 # 10; 0]%Q /\
  decode_predictions [5 # 10; 5 # 10; 0]%Q 2
  = Ok (firstn (Z.to_nat (Z.min 2 (Z.of_nat (length [5 # 10; 5 # 10; 0]%Q))))
               (combine CLASS_NAMES [5 # 10; 5 # 10; 0]%Q)).
Proof.
  assert (H1 : (length [5 # 10; 5 # 10; 0]%Q <= 3)%nat) by (simpl; lia).
  assert (H2 : (0 <= 2)%Z) by lia.
  assert (H3 : StronglySorted (fun a b => (b <= a)%Q) [5 # 10; 5 # 10; 0]%Q).
  { repeat constructor; unfold Qle; simpl; lia. }
  split; [exact H1|]. split; [exact H2|]. split; [exact H3|].
  exact (decode_keeps_class_order_when_sorted _ 2%Z H1 H2 H3).
Defined.

Lemma decode_negative_top_drops_tail_witness :
  (length probs <= 3)%nat /\ (-1 < 0)%Z /\
  exists ranked,
    Permutation ranked (combine CLASS_NAMES probs) /\
    StronglySorted desc ranked /\
    decode_predictions probs (-1)
    = Ok (firstn (length probs - Z.to_nat (- (-1))) ranked).
Proof.
  assert (H1 : (length probs <= 3)%nat) by (simpl; lia).
  assert (H2 : (-1 < 0)%Z) by lia.
  split; [exact H1|]. split; [exact H2|].
  exact (decode_negative_top_drops_tail probs (-1)%Z H1 H2).
Defined.

Lemma decode_more_than_three_raises_witness :
  (3 < length [1; 0; 0; 0]%Q)%nat /\
  decode_predictions [1; 0; 0; 0]%Q 3 = Raise (IndexError "list index out of range").
Proof.
  assert (H : (3 < length [1; 0; 0; 0]%Q)%nat) by (simpl; lia).
  split; [exact H|]. exact (decode_more_than_three_raises _ 3%Z H).
Defined.

Lemma load_missing_dataset_raises_witness :
  h5_images no_targets = None /\
  load_image_h5 no_targets false false false false
  = Raise (KeyError "unable to open object").
Proof.
  split; [reflexivity|].
  apply (load_missing_dataset_raises no_targets false false false false eq_refl).
  right; left; reflexivity.
Defined.

Lemma load_plain_returns_stored_witness :
  h5_images pixel_file = None /\
  load_image_h5 pixel_file false false false false
  = Ok (LPair (FImages [[[[1; 2; 3]%Z]]; [[[4; 5; 6]%Z]]], TLabels [0; 1]%Z)
              (FImages [[[[7; 8; 9]%Z]]], TLabels [1]%Z)).
Proof.
  split; [reflexivity|].
  apply (proj2 (load_plain_returns_stored pixel_file false _ eq_refl)).
  exists [[[[1; 2; 3]%Z]]; [[[4; 5; 6]%Z]]], [0; 1]%Z, [[[[7; 8; 9]%Z]]], [1]%Z,
    1%Q, []. repeat split.
Defined.

Lemma flatten_keeps_every_value_witness :
  exists r tr te,
    load_image_h5 pixel_file false true false false = Ok r /\
    loaded_features r = Some (FFlat tr, FFlat te) /\
    Forall (fun v => length v = (1 * 1 * 3)%nat) (tr ++ te).
Proof.
  assert (H1 : [[[[1; 2; 3]%Z]]; [[[4; 5; 6]%Z]]] <> []) by discriminate.
  assert (H2 : [[[[7; 8; 9]%Z]]] <> []) by discriminate.
  assert (H3 : Forall (shaped 1 1 3)
                      ([[[[1; 2; 3]%Z]]; [[[4; 5; 6]%Z]]] ++ [[[[7; 8; 9]%Z]]])).
  { unfold shaped; simpl. repeat (split || constructor). }
  destruct (flatten_keeps_every_value _ [0; 1]%Z _ [1]%Z 1%Q false false 1 1 3 H1 H2 H3)
    as [r [tr [te [E [F [_ [_ L]]]]]]].
  exists r, tr, te. auto.
Defined.

Lemma flatten_empty_features_raises_witness :
  load_image_h5 (labeled_file [[[[1; 2; 3]%Z]]] [0]%Z [] [] 1%Q) false true false false
  = Raise (ValueError "cannot reshape array of size 0").
Proof.
  apply flatten_empty_features_raises. right; reflexivity.
Defined.

Lemma binary_is_identity_on_two_classes_witness :
  load_image_h5 pixel_file false false false true
  = load_image_h5 pixel_file false false false false.
Proof.
  assert (H : Forall (fun l => l = 0 \/ l = 1)%Z ([0; 1] ++ [1])%Z).
  { simpl. repeat (apply Forall_cons; [auto|]). constructor. }
  exact (proj1 (binary_is_identity_on_two_classes _ _ _ _ 1%Q false false H)).
Defined.

Lemma one_hot_injective_witness :
  (0 <= 1 < 3)%Z /\ one_hot 3 1 = one_hot 3 1 /\ 1%Z = 1%Z.
Proof.
  assert (H : (0 <= 1 < 3)%Z) by lia.
  split; [exact H|]. split; [reflexivity|].
  exact (one_hot_injective 3 1 1 H H eq_refl).
Defined.


Local Open Scope R_scope.

Lemma log_event_elementwise_when_first_positive_witness :
  0 < pq (mkPoint 1 2 3 10) /\
  Forall (fun q => 0 <= pq q) [mkPoint 4 5 6 0] /\
  log_event ([mkPoint 1 2 3 10; mkPoint 4 5 6 0], 0%Z)
  = Ok (map (fun q => set_pq q (spec_transform (pq q)))
            [mkPoint 1 2 3 10; mkPoint 4 5 6 0], 0%Z).
Proof.
  assert (H1 : 0 < pq (mkPoint 1 2 3 10)) by (simpl; lra).
  assert (H2 : Forall (fun q => 0 <= pq q) [mkPoint 4 5 6 0]).
  { constructor; [simpl; lra | constructor]. }
  split; [exact H1|]. split; [exact H2|].
  exact (log_event_elementwise_when_first_positive _ _ 0%Z H1 H2).
Defined.

Lemma log_stage_changes_only_charges_witness :
  Forall2 (fun e e' : Labeled =>
             snd e' = snd e /\
             Forall2 (fun q q' => px q' = px q /\ py q' = py q /\ pz q' = pz q)
                     (fst e) (fst e'))
          [([mkPoint 1 2 3 10], 0%Z); ([mkPoint 4 5 6 100], 1%Z)]
          [([mkPoint 1 2 3 (log10 10)], 0%Z); ([mkPoint 4 5 6 (log10 100)], 1%Z)].
Proof.
  exact (log_stage_changes_only_charges _ _ (proj1 log_two_events)).
Defined.

Lemma log_event_negative_charge_raises_witness :
  Exists (fun q => pq q < 0) [mkPoint 1 2 3 10; mkPoint 4 5 6 (-1)] /\
  log_event ([mkPoint 1 2 3 10; mkPoint 4 5 6 (-1)], 0%Z)
  = Raise (ValueError "math domain error").
Proof.
  assert (H : Exists (fun q => pq q < 0) [mkPoint 1 2 3 10; mkPoint 4 5 6 (-1)]).
  { apply Exists_cons_tl, Exists_cons_hd. simpl; lra. }
  split; [exact H|]. exact (log_event_negative_charge_raises _ 0%Z H).
Defined.

Lemma normalized_train_peaks_at_one_witness :
  normalize [([mkPoint 0 0 0 1; mkPoint 0 0 0 2], 0%Z)] []
  = Ok (2, [([mkPoint 0 0 0 (1 / 2); mkPoint 0 0 0 (2 / 2)], 0%Z)], []) /\
  0 < 2 /\
  (forall e q,
      In e [([mkPoint 0 0 0 (1 / 2); mkPoint 0 0 0 (2 / 2)], 0%Z)] ->
      In q (fst e) -> pq q <= 1) /\
  (exists e q,
      In e [([mkPoint 0 0 0 (1 / 2); mkPoint 0 0 0 (2 / 2)], 0%Z)] /\
      In q (fst e) /\ pq q = 1).
Proof.
  assert (H1 : normalize [([mkPoint 0 0 0 1; mkPoint 0 0 0 2], 0%Z)] []
               = Ok (2, [([mkPoint 0 0 0 (1 / 2); mkPoint 0 0 0 (2 / 2)], 0%Z)], [])).
  { unfold normalize, max_charge; simpl.
    replace (Rmax 1 2) with 2 by (symmetry; apply Rmax_right; lra). reflexivity. }
  assert (H2 : 0 < 2) by lra.
  split; [exact H1|]. split; [exact H2|].
  exact (normalized_train_peaks_at_one _ _ _ _ _ H1 H2).
Defined.

Lemma split_partition_sizes_witness :
  length (snd (split ([([], 0%Z); ([], 1%Z); ([], 2%Z)] : list Labeled)))
  = ((3 + 4) / 5)%nat.
Proof.
  exact (proj1 (split_partition_sizes [([], 0%Z); ([], 1%Z); ([], 2%Z)])).
Defined.

Lemma ingest_labeled_run_follows_table_witness :
  open_run two_labeled "0130"
  = Ok (mkRun [(7%Z, [mkPoint 1 2 3 10]); (9%Z, [mkPoint 4 5 6 100])]
              [(7%Z, "p"); (9%Z, "c")]) /\
  ingest_labeled_run two_labeled "0130"
  = Ok [([mkPoint 1 2 3 10], 0%Z); ([mkPoint 4 5 6 100], 1%Z)] /\
  exists protons carbons junk,
    [([mkPoint 1 2 3 10], 0%Z); ([mkPoint 4 5 6 100], 1%Z)]
    = protons ++ carbons ++ junk /\
    length protons = 1%nat /\ length carbons = 1%nat /\ length junk = 0%nat.
Proof.
  split; [reflexivity|]. split; [reflexivity|].
  destruct (ingest_labeled_run_follows_table two_labeled "0130" _ _ eq_refl eq_refl)
    as [ps [cs [js [E [Hp [Hc Hj]]]]]].
  exists ps, cs, js. split; [exact E|].
  apply Forall2_length in Hp, Hc, Hj. simpl in Hp, Hc, Hj. auto.
Defined.

Lemma ingest_labeled_run_missing_event_witness :
  In (8%Z, "c") [(7%Z, "p"); (8%Z, "c")] /\
  ingest_labeled_run dangling_label "0130" = Raise (KeyError "event not found").
Proof.
  assert (H : In (8%Z, "c") [(7%Z, "p"); (8%Z, "c")]) by (right; left; reflexivity).
  split; [exact H|].
  apply (ingest_labeled_run_missing_event dangling_label "0130" _ 8%Z "c" eq_refl H).
  - right; left; reflexivity.
  - intros xyzs [E|[]]. inversion E.
Defined.

Lemma ingest_unlabeled_takes_every_event_witness :
  exists data,
    ingest_unlabeled two_labeled = Ok data /\
    map fst data = [[mkPoint 1 2 3 10]; [mkPoint 4 5 6 100]] /\
    Forall (fun ev => snd ev = (-1)%Z) data.
Proof.
  exact (ingest_unlabeled_takes_every_event two_labeled _ _ eq_refl eq_refl).
Defined.

Lemma missing_input_stops_in_ingestion_witness :
  run (real_labeled unit (fun _ => tt) (PStr "xy") no_files "out" "run_") [5%nat]
  = (mkState [5%nat] [StIngest], Raise (OSError "unable to open file")) /\
  run (simulated unit (fun _ => tt) (fun e => e) (PStr "xy") true 0 no_files
                 "out" "run_") [5%nat]
  = (mkState [5%nat] [StIngest], Raise (OSError "unable to open file")).
Proof.
  destruct (missing_input_stops_in_ingestion unit (fun _ => tt) (fun e => e)
              (PStr "xy") true 0%Z no_files "out" "run_" [5%nat]) as [Hreal Hsim].
  split.
  - apply Hreal. intros r [].
  - apply Hsim. left; reflexivity.
Defined.




Lemma labeled_run_needs_two_events_witness :
  (length (@nil Labeled) <= 1)%nat /\
  exists s err,
    run (real_labeled_stages unit (fun _ => tt) open_disk "out" "run_" (PStr "xy") [])
        [] = (s, Raise err) /\
    ~ In StRender (trace s) /\
    (forall d, log_stage [] = Ok d -> err = zero_size_msg).
Proof.
  assert (H : (length (@nil Labeled) <= 1)%nat) by (simpl; lia).
  split; [exact H|].
  exact (proj1 (labeled_run_needs_two_events unit (fun _ => tt) open_disk "out" "run_"
                  (PStr "xy") [] [] H)).
Defined.

Lemma invalid_type_rejected_before_any_stage_witness :
  "fake" <> "real" /\ "fake" <> "sim" /\
  run (main unit (fun _ => tt) (fun e => e)
            (mkArgs "fake" "xy" true true 0 "out" "run_") no_files) [2%nat]
  = (mkState [2%nat] [], Raise (UsageError "invalid choice")).
Proof.
  assert (H1 : "fake" <> "real") by discriminate.
  assert (H2 : "fake" <> "sim") by discriminate.
  split; [exact H1|]. split; [exact H2|].
  exact (invalid_type_rejected_before_any_stage unit (fun _ => tt) (fun e => e)
           (mkArgs "fake" "xy" true true 0 "out" "run_") no_files [2%nat] H1 H2).
Defined.


Lemma charge_transform_scalar_witness :
  0 < 10 /\ 10 <= 100 /\
  exists va vb, _l 10 = Ok va /\ _l 100 = Ok vb /\ num_val va <= num_val vb.
Proof.
  assert (H1 : 0 < 10) by lra. assert (H2 : 10 <= 100) by lra.
  split; [exact H1|]. split; [exact H2|].
  exact (proj1 (proj2 charge_transform_scalar) 10 100 H1 H2).
Defined.

Lemma invalid_projection_direct_call_witness :
  "ab" <> "xy" /\ "ab" <> "zy" /\
  exists s err,
    run (real_labeled_stages unit (fun _ => tt) open_disk "out" "run_" (PStr "ab")
           [([mkPoint 1 2 3 10], 0%Z); ([mkPoint 4 5 6 100], 1%Z)]) []
    = (s, Raise err) /\
    In StLog (trace s).
Proof.
  assert (H1 : "ab" <> "xy") by discriminate.
  assert (H2 : "ab" <> "zy") by discriminate.
  split; [exact H1|]. split; [exact H2|].
  destruct (invalid_projection_direct_call unit (fun _ => tt) open_disk "out" "run_" "ab"
              [([mkPoint 1 2 3 10], 0%Z); ([mkPoint 4 5 6 100], 1%Z)] [] H1 H2)
    as [s [err [E [Hin _]]]].
  exists s, err. auto.
Defined.


Lemma default_save_path_never_saves_witness :
  arg_save_path (mkArgs "real" "zy" true true 0 EmptyString EmptyString)
  = EmptyString /\
  is_ok (snd (run (main unit (fun _ => tt) (fun e => e)
                        (mkArgs "real" "zy" true true 0 EmptyString EmptyString)
                        two_labeled) [])) = false.
Proof.
  split; [reflexivity|].
  exact (default_save_path_never_saves unit (fun _ => tt) (fun e => e)
           (mkArgs "real" "zy" true true 0 EmptyString EmptyString)
           two_labeled [] eq_refl).
Defined.

(** The run of [real_labeled_zy_run] with [--save_path] and [--prefix] left
    at their defaults: both events are rendered, then the save raises. *)
Example real_labeled_default_path_run :
  run (main Scatter (fun call => call) (fun e => e)
            (mkArgs "real" "zy" true true 0 EmptyString EmptyString) two_labeled) []
  = (mkState [] [StIngest; StLog; StShuffle; StSplit; StNormalize;
                 StRender; StRender; StSave],
     Raise (FileNotFoundError "No such file or directory")).
Proof.
  destruct log_two_events as [Hlog _].
  unfold run, main.
  cbn [arg_type arg_projection arg_labeled arg_save_path arg_prefix].
  assert (Ht : click_choice ["real"; "sim"] "real" = Ok "real") by reflexivity.
  assert (Hp : click_choice ["xy"; "zy"] "zy" = Ok "zy") by reflexivity.
  rewrite Ht, bind_lift_ok, Hp, bind_lift_ok.
  replace (String.eqb "real" "real") with true by reflexivity.
  unfold real_labeled, real_labeled_stages.
  assert (Hi : ingest_labeled two_labeled
               = Ok [([mkPoint 1 2 3 10], 0%Z); ([mkPoint 4 5 6 100], 1%Z)])
    by reflexivity.
  unfold bind, tell, lift. rewrite Hi. cbn [trace tape app]. rewrite Hlog.
  reflexivity.
Qed.

End MoreExamples.
